(** * jquery.jsonrpcclient.js: a shallow embedding and its properties

    The plugin [$.JsonRpcClient] (src/jquery.jsonrpcclient.js) is a JSON-RPC 2.0
    client that talks through a WebSocket when one is available and through
    HTTP POST ([$.ajax]) otherwise.  The embedding follows the source function
    by function:

    - JavaScript values that the plugin inspects are [json] and [jsval];
    - objects that are mutated in place live in a store, [World]: the client
      instances, the sockets, and the one [_ws_callbacks] object that sits
      on the prototype;
    - a method is a computation [M A := World -> outcome A] that either
      returns or throws, and keeps the store as it was at the throw;
    - functions supplied by the caller (continuations, the [onmessage]
      fallback, a custom [getSocket]) and the two jQuery helpers [$.toJSON]
      and [$.parseJSON] are parameters of the development. *)

From Stdlib Require Import ZArith String List DecimalString DecimalPos DecimalZ.
From stdpp Require Import base option gmap strings list.

Open Scope string_scope.
Open Scope list_scope.
Set Warnings "-register-all".

(** ** JavaScript values *)

(** A parsed JSON document.  Numbers are taken to be integers, which is what
    request ids are; an object is the list of its own properties. *)
Inductive json : Type :=
  | JNull
  | JBool (b : bool)
  | JNum (n : Z)
  | JStr (s : string)
  | JArr (items : list json)
  | JObj (fields : list (string * json)).

(** The name of a function value supplied by the caller. *)
Definition Cb : Type := nat.

(** What can be passed around as an argument: [undefined], a JSON value, a
    function, a WebSocket message event (only its [data] matters), or a
    jqXHR object (only its [responseText] matters). *)
Inductive jsval : Type :=
  | VUndef
  | VJson (j : json)
  | VFun (f : Cb)
  | VEvent (data : string)
  | VXhr (responseText : string).

Inductive exn : Type :=
  | TypeError (what : string)
  | SyntaxError
  | Thrown (v : jsval).

(** [typeof v === 'function'] and [typeof v !== 'undefined']. *)
Definition is_function (v : jsval) : bool :=
  match v with VFun _ => true | _ => false end.

Definition is_undefined (v : jsval) : bool :=
  match v with VUndef => true | _ => false end.

(** [v === null]. *)
Definition is_null (v : jsval) : bool :=
  match v with VJson JNull => true | _ => false end.

(** [typeof response === 'object'] for a parsed JSON value: true of objects,
    arrays and [null]. *)
Definition typeof_object (j : json) : bool :=
  match j with JNull | JArr _ | JObj _ => true | _ => false end.

Fixpoint assoc (k : string) (fields : list (string * json)) : option json :=
  match fields with
  | [] => None
  | (k', v) :: rest => if String.eqb k k' then Some v else assoc k rest
  end.

Definition Z_to_string (n : Z) : string := NilZero.string_of_int (Z.to_int n).

(** ToString, as applied to a value used as a property key
    ([obj[response.id]], [response.id in obj]). *)
Fixpoint json_to_string (j : json) : string :=
  match j with
  | JNull => "null"
  | JBool true => "true"
  | JBool false => "false"
  | JNum n => Z_to_string n
  | JStr s => s
  | JArr items =>
      let item x := match x with JNull => "" | _ => json_to_string x end in
      (fix join (l : list json) : string :=
         match l with
         | [] => ""
         | [x] => item x
         | x :: rest => (item x ++ "," ++ join rest)%string
         end) items
  | JObj _ => "[object Object]"
  end.

Definition to_key (v : jsval) : string :=
  match v with
  | VUndef => "undefined"
  | VJson j => json_to_string j
  | VFun _ => "function"
  | VEvent _ => "[object MessageEvent]"
  | VXhr _ => "[object Object]"
  end.

(** The property names every object literal [{}] inherits from
    [Object.prototype]; [k in obj] and [obj[k]] see them. *)
Definition Object_prototype : list string :=
  [ "constructor"; "toString"; "toLocaleString"; "valueOf"; "hasOwnProperty";
    "isPrototypeOf"; "propertyIsEnumerable"; "__proto__";
    "__defineGetter__"; "__defineSetter__"; "__lookupGetter__";
    "__lookupSetter__" ].

Definition inherited (k : string) : bool :=
  existsb (String.eqb k) Object_prototype.

(** ** The store *)

(** [{ success_cb: cb, error_cb: cb }], the value kept under an id. *)
Record Handlers : Type := mkHandlers {
  success_cb : jsval;
  error_cb : jsval
}.

(** An element of [this._batch]: [{ request, success_cb, error_cb }]; a
    notify stores [{ request }] and both continuations read as [undefined]. *)
Record BatchEntry : Type := mkBatchEntry {
  request : json;
  handlers_of : Handlers
}.

(** [options.getSocket]: the default closure over [self._getSocket], or a
    function of the caller. *)
Inductive GetSocket : Type :=
  | DefaultGetSocket
  | CustomGetSocket (f : Cb).

Record Options : Type := mkOptions {
  ajaxUrl : option string;
  socketUrl : option string;
  onmessage : jsval;
  getSocket : GetSocket
}.

(** The own fields of one client.  [_ws_socket], [_current_id] and [_batch]
    start from the prototype's [null], [1] and [null]; the first assignment
    through [this] makes them own properties, so they are per instance.
    [_current_id] is a JavaScript number, a double, that starts at 1 and
    that only [++] touches: it is an integer between 1 and 2^53. *)
Record Client : Type := mkClient {
  options : Options;
  _ws_socket : option nat;
  _current_id : Z;
  _batch : option (list BatchEntry)
}.

(** 2^53, where the integers that a double holds exactly end: 2^53 + 1 is
    not a double and rounds back to 2^53. *)
Definition max_id : Z := 9007199254740992.

(** The value that [n++] leaves in the variable, for an integer [n] up to
    2^53. *)
Definition js_incr (n : Z) : Z :=
  if (n <? max_id)%Z then (n + 1)%Z else n.

(** A WebSocket.  [sock_onopen] holds the closure that [_wsCall] installs,
    [function() { socket.send(request_json); }], by the socket and the text
    it captured; [sock_onmessage] holds the client whose [wsOnMessage] is
    bound. *)
Record Socket : Type := mkSocket {
  sock_url : string;
  readyState : Z;
  sock_onopen : option (nat * string);
  sock_onmessage : option nat
}.

(** The handlers given to [$.ajax]. *)
Inductive AjaxHandlers : Type :=
  | AjaxCall (success error : jsval)
  | AjaxNotify
  | AjaxBatch (handlers : gmap string Handlers) (all_done_cb error_cb : jsval).

(** What the plugin does to its surroundings, in order. *)
Inductive Event : Type :=
  | EvLog (v : json)
  | EvInvoke (f : Cb) (args : list jsval)
  | EvAjax (url : option string) (data : string) (k : AjaxHandlers)
  | EvNewSocket (s : nat) (url : string)
  | EvSend (s : nat) (data : string).

(** [_ws_callbacks] is the single object created at line 52 on the
    prototype.  No line assigns [this._ws_callbacks]; lines 325, 355 and 368
    write and delete properties of the object that [this._ws_callbacks]
    reads, which is the prototype's, so the store has one registry and not
    one per client. *)
Record World : Type := mkWorld {
  window_console : bool;
  window_WebSocket : bool;
  _ws_callbacks : gmap string Handlers;
  clients : list Client;
  sockets : list Socket;
  trace : list Event
}.

Definition with_callbacks (r : gmap string Handlers) (w : World) : World :=
  mkWorld (window_console w) (window_WebSocket w) r (clients w) (sockets w) (trace w).

Definition with_clients (cs : list Client) (w : World) : World :=
  mkWorld (window_console w) (window_WebSocket w) (_ws_callbacks w) cs (sockets w) (trace w).

Definition with_sockets (ss : list Socket) (w : World) : World :=
  mkWorld (window_console w) (window_WebSocket w) (_ws_callbacks w) (clients w) ss (trace w).

Definition with_trace (t : list Event) (w : World) : World :=
  mkWorld (window_console w) (window_WebSocket w) (_ws_callbacks w) (clients w) (sockets w) t.

Definition set_current_id (n : Z) (c : Client) : Client :=
  mkClient (options c) (_ws_socket c) n (_batch c).

Definition set_batch (b : option (list BatchEntry)) (c : Client) : Client :=
  mkClient (options c) (_ws_socket c) (_current_id c) b.

Definition set_ws_socket (s : option nat) (c : Client) : Client :=
  mkClient (options c) s (_current_id c) (_batch c).

Definition set_onopen (h : option (nat * string)) (s : Socket) : Socket :=
  mkSocket (sock_url s) (readyState s) h (sock_onmessage s).

Definition set_onmessage (h : option nat) (s : Socket) : Socket :=
  mkSocket (sock_url s) (readyState s) (sock_onopen s) h.

Definition set_readyState (n : Z) (s : Socket) : Socket :=
  mkSocket (sock_url s) n (sock_onopen s) (sock_onmessage s).

(** ** Computations that may throw *)

Inductive outcome (A : Type) : Type :=
  | Ret (a : A) (w : World)
  | Raise (e : exn) (w : World).
Arguments Ret {A} a w.
Arguments Raise {A} e w.

Definition M (A : Type) : Type := World -> outcome A.

Definition world_of {A} (o : outcome A) : World :=
  match o with Ret _ w => w | Raise _ w => w end.

Definition ret {A} (a : A) : M A := fun w => Ret a w.

Definition bind {A B} (m : M A) (k : A -> M B) : M B :=
  fun w => match m w with
           | Ret a w' => k a w'
           | Raise e w' => Raise e w'
           end.

Definition raise {A} (e : exn) : M A := fun w => Raise e w.

(** [try { m } catch (err) { h err }]. *)
Definition try_catch {A} (m : M A) (h : exn -> M A) : M A :=
  fun w => match m w with
           | Ret a w' => Ret a w'
           | Raise e w' => h e w'
           end.

Declare Scope js_scope.
Delimit Scope js_scope with js.
Notation "x <- m ;; k" := (bind m (fun x => k))
  (at level 100, m at next level, right associativity) : js_scope.
Notation "m ;; k" := (bind m (fun _ => k))
  (at level 100, right associativity) : js_scope.
Open Scope js_scope.

Definition get_world : M World := fun w => Ret w w.
Definition modify (f : World -> World) : M unit := fun w => Ret tt (f w).

Definition emit (e : Event) : M unit :=
  modify (fun w => with_trace (trace w ++ [e]) w).

(** Reading a field through [this]; a [this] that is no client has no
    [options], no [_batch], and the access throws. *)
Definition get_client (this : nat) : M Client :=
  fun w => match clients w !! this with
           | Some c => Ret c w
           | None => Raise (TypeError "this is not a JsonRpcClient") w
           end.

Definition update_client (this : nat) (f : Client -> Client) : M unit :=
  c <- get_client this ;;
  modify (fun w => with_clients (<[this := f c]> (clients w)) w).

Definition get_socket (s : nat) : M Socket :=
  fun w => match sockets w !! s with
           | Some sk => Ret sk w
           | None => Raise (TypeError "not a WebSocket") w
           end.

Definition update_socket (s : nat) (f : Socket -> Socket) : M unit :=
  sk <- get_socket s ;;
  modify (fun w => with_sockets (<[s := f sk]> (sockets w)) w).

Definition has_own (name : string) (fields : list (string * json)) : bool :=
  match assoc name fields with Some _ => true | None => false end.

(** ['name' in v] for the member names the plugin tests ([jsonrpc],
    [result], [error], [id]), none of which is inherited.  The operand must
    be an object: [null] and the primitives throw. *)
Definition has_prop (name : string) (v : json) : M bool :=
  match v with
  | JObj fields => ret (has_own name fields)
  | JArr _ => ret false
  | _ => raise (TypeError "right-hand side of 'in' is not an object")
  end.

Definition member (name : string) (fields : list (string * json)) : jsval :=
  match assoc name fields with Some x => VJson x | None => VUndef end.

(** [v.name] for the same names: [undefined] when absent, a throw on
    [null]. *)
Definition get_prop (name : string) (v : json) : M jsval :=
  match v with
  | JObj fields => ret (member name fields)
  | JNull => raise (TypeError "cannot read a property of null")
  | _ => ret VUndef
  end.

(** [console.log(v)] behind its guard ['console' in window]. *)
Definition console_log (v : json) : M unit := emit (EvLog v).

(** [socket.send(data)]. *)
Definition socket_send (s : nat) (data : string) : M unit := emit (EvSend s data).

(** [a && b] on conditions that may throw: [b] is evaluated only when [a]
    holds. *)
Definition and_then (a b : M bool) : M bool :=
  x <- a ;; if x then b else ret false.
Infix "&&&" := and_then (at level 40, left associativity) : js_scope.

(** ['console' in window]. *)
Definition has_console : M bool :=
  w <- get_world ;; ret (window_console w).

(** Looking a key up in an object literal that holds [Handlers]: an own
    property, a member of [Object.prototype], or nothing. *)
Inductive slot : Type :=
  | Own (h : Handlers)
  | Inherited
  | Missing.

Definition lookup_slot (k : string) (obj : gmap string Handlers) : slot :=
  match obj !! k with
  | Some h => Own h
  | None => if inherited k then Inherited else Missing
  end.

(** [k in obj]. *)
Definition key_in (k : string) (obj : gmap string Handlers) : bool :=
  match lookup_slot k obj with Missing => false | _ => true end.

(** Truthiness of [obj[k]]: an entry and an inherited member are both
    truthy, [undefined] is not. *)
Definition truthy (s : slot) : bool :=
  match s with Missing => false | _ => true end.

(** [obj[k].success_cb] and [obj[k].error_cb]: the inherited members have
    no such property, and reading a property of [undefined] throws. *)
Definition slot_get (field : Handlers -> jsval) (s : slot) : M jsval :=
  match s with
  | Own h => ret (field h)
  | Inherited => ret VUndef
  | Missing => raise (TypeError "cannot read a property of undefined")
  end.

(** ** The plugin *)

Section Plugin.

(** [$.toJSON] and [$.parseJSON]; the latter throws on malformed text. *)
Variable toJSON : json -> string.
Variable parseJSON : string -> option json.

(** What a function of the caller does when it is called. *)
Variable run_cb : Cb -> list jsval -> M unit.

(** What a custom [getSocket] does when it is called with the
    [wsOnMessage] of a client: it returns a socket or [null]. *)
Variable run_getSocket : Cb -> nat -> M (option nat).

(** [f(args)]. *)
Definition invoke (f : jsval) (args : list jsval) : M unit :=
  match f with
  | VFun g => emit (EvInvoke g args) ;; run_cb g args
  | _ => raise (TypeError "not a function")
  end.

Definition parse (text : string) : M json :=
  match parseJSON text with
  | Some v => ret v
  | None => raise SyntaxError
  end.

(** [$.ajax({ url, data, ..., success, error })]: the exchange is started
    and its handlers are kept for later. *)
Definition ajax (url : option string) (data : string) (k : AjaxHandlers) : M unit :=
  emit (EvAjax url data k).

(** [new WebSocket(url)]: a fresh socket, still connecting. *)
Definition new_WebSocket (url : string) : M nat :=
  w <- get_world ;;
  let s := length (sockets w) in
  modify (with_sockets (sockets w ++ [mkSocket url 0 None None])) ;;
  emit (EvNewSocket s url) ;;
  ret s.

(** [new $.JsonRpcClient(options)], lines 35-58; [opts] is the result of
    [$.extend] over the defaults. *)
Definition default_options : Options :=
  mkOptions None None (VJson JNull) DefaultGetSocket.

Definition new_client (opts : Options) : M nat :=
  w <- get_world ;;
  modify (with_clients (clients w ++ [mkClient opts None 1 None])) ;;
  ret (length (clients w)).

(** [this._ws_callbacks], read through a client. *)
Definition callbacks_of (this : nat) : M (gmap string Handlers) :=
  get_client this ;;
  w <- get_world ;;
  ret (_ws_callbacks w).

(** [_getSocket], lines 283-297. *)
Definition _getSocket (this : nat) (onmessage_cb : nat) : M (option nat) :=
  c <- get_client this ;;
  w <- get_world ;;
  match socketUrl (options c) with
  | None => ret None
  | Some url =>
      if negb (window_WebSocket w) then ret None
      else
        fresh <- match _ws_socket c with
                 | None => ret true
                 | Some s => sk <- get_socket s ;; ret (1 <? readyState sk)%Z
                 end ;;
        (if fresh : bool then
           s <- new_WebSocket url ;;
           update_client this (set_ws_socket (Some s)) ;;
           update_socket s (set_onmessage (Some onmessage_cb))
         else ret tt) ;;
        c' <- get_client this ;;
        ret (_ws_socket c')
  end.

(** [this.options.getSocket(this.wsOnMessage)], lines 79 and 148. *)
Definition options_getSocket (this : nat) : M (option nat) :=
  c <- get_client this ;;
  match getSocket (options c) with
  | DefaultGetSocket => _getSocket this this
  | CustomGetSocket f => run_getSocket f this
  end.

(** [_wsCall], lines 305-327.  (Line 310 assigns an undeclared [self];
    nothing reads it.)  The ids written here come from [call] and are
    numbers. *)
Definition _wsCall (this socket : nat) (request : json)
    (success_cb error_cb : jsval) : M unit :=
  let request_json := toJSON request in
  sk <- get_socket socket ;;
  (if (readyState sk <? 1)%Z
   then update_socket socket (set_onopen (Some (socket, request_json)))
   else socket_send socket request_json) ;;
  registers <- has_prop "id" request &&& ret (negb (is_undefined success_cb)) ;;
  if registers : bool then
    id <- get_prop "id" request ;;
    get_client this ;;
    modify (fun w =>
      with_callbacks (<[to_key id := mkHandlers success_cb error_cb]> (_ws_callbacks w)) w)
  else ret tt.

(** Lines 381-384: the fallback message handler. *)
Definition fallback (this : nat) (event : string) : M unit :=
  c <- get_client this ;;
  if is_function (onmessage (options c))
  then invoke (onmessage (options c)) [VEvent event]
  else ret tt.

(** [this._ws_callbacks[response.id]]. *)
Definition pending (this : nat) (response : json) : M slot :=
  id <- get_prop "id" response ;;
  cbs <- callbacks_of this ;;
  ret (lookup_slot (to_key id) cbs).

(** [delete this._ws_callbacks[response.id]]; only an own property is
    removed. *)
Definition delete_pending (this : nat) (response : json) : M unit :=
  id <- get_prop "id" response ;;
  get_client this ;;
  modify (fun w => with_callbacks (delete (to_key id) (_ws_callbacks w)) w).

Definition is_2_0 (v : jsval) : bool :=
  match v with VJson (JStr s) => String.eqb s "2.0" | _ => false end.

(** The [try] block of [_wsOnMessage], lines 339-374; the result says
    whether one of its two [return]s was reached. *)
Definition _wsOnMessage_try (this : nat) (event : string) : M bool :=
  response <- parse event ;;
  is_response <- ret (typeof_object response)
                 &&& has_prop "jsonrpc" response
                 &&& (v <- get_prop "jsonrpc" response ;; ret (is_2_0 v)) ;;
  if is_response : bool then
    resolves <- has_prop "result" response
                &&& (s <- pending this response ;; ret (truthy s)) ;;
    if resolves : bool then
      s <- pending this response ;;
      success <- slot_get success_cb s ;;
      delete_pending this response ;;
      result <- get_prop "result" response ;;
      invoke success [result] ;;
      ret true
    else
      rejects <- has_prop "error" response
                 &&& (s <- pending this response ;; ret (truthy s)) ;;
      if rejects : bool then
        s <- pending this response ;;
        error <- slot_get error_cb s ;;
        delete_pending this response ;;
        e <- get_prop "error" response ;;
        invoke error [e] ;;
        ret true
      else ret false
  else ret false.

(** [_wsOnMessage], lines 336-385; [event] is [event.data]. *)
Definition _wsOnMessage (this : nat) (event : string) : M unit :=
  returned <- try_catch (_wsOnMessage_try this event) (fun _ => ret false) ;;
  if returned : bool then ret tt else fallback this event.

(** Lines 71-76: the request object of [call]; [this._current_id++]. *)
Definition call_request (this : nat) (method params : json) : M json :=
  c <- get_client this ;;
  update_client this (set_current_id (js_incr (_current_id c))) ;;
  ret (JObj [ ("jsonrpc", JStr "2.0"); ("method", method);
              ("params", params); ("id", JNum (_current_id c)) ]).

(** Lines 107-110: the [success] handler that [call] gives to [$.ajax]. *)
Definition call_success (success_cb error_cb : jsval) (data : json) : M unit :=
  failed <- has_prop "error" data ;;
  (if failed : bool
   then e <- get_prop "error" data ;; invoke error_cb [e]
   else ret tt) ;;
  result <- get_prop "result" data ;;
  invoke success_cb [result].

(** Lines 113-123: the [error] handler that [call] gives to [$.ajax]. *)
Definition call_error (error_cb : jsval) (responseText : string) : M unit :=
  try_catch
    (response <- parse responseText ;;
     logs <- has_console ;;
     (if logs : bool then console_log response else ret tt) ;;
     e <- get_prop "error" response ;;
     invoke error_cb [e])
    (fun _ => invoke error_cb [VJson (JObj [("error", JStr responseText)])]).

(** Lines 78-124: what [call] does with the request it has built. *)
Definition call_dispatch (this : nat) (request : json)
    (success_cb error_cb : jsval) : M unit :=
  socket <- options_getSocket this ;;
  match socket with
  | Some s => _wsCall this s request success_cb error_cb
  | None =>
      c <- get_client this ;;
      match _batch c with
      | Some batch =>
          update_client this
            (set_batch (Some (batch ++ [mkBatchEntry request (mkHandlers success_cb error_cb)])))
      | None =>
          match ajaxUrl (options c) with
          | None =>
              raise (Thrown (VJson (JStr
                "$.JsonRpcClient.call used with no websocket and no http endpoint.")))
          | Some url =>
              ajax (Some url) (toJSON request) (AjaxCall success_cb error_cb)
          end
      end
  end.

(** [call], lines 69-125. *)
Definition call (this : nat) (method params : json)
    (success_cb error_cb : jsval) : M unit :=
  request <- call_request this method params ;;
  call_dispatch this request success_cb error_cb.

(** Lines 141-145: the request object of [notify]. *)
Definition notify_request (method params : json) : json :=
  JObj [ ("jsonrpc", JStr "2.0"); ("method", method); ("params", params) ].

(** [notify], lines 139-172. *)
Definition notify (this : nat) (method params : json) : M unit :=
  let request := notify_request method params in
  socket <- options_getSocket this ;;
  match socket with
  | Some s => _wsCall this s request VUndef VUndef
  | None =>
      c <- get_client this ;;
      match _batch c with
      | Some batch =>
          update_client this
            (set_batch (Some (batch ++ [mkBatchEntry request (mkHandlers VUndef VUndef)])))
      | None =>
          match ajaxUrl (options c) with
          | None =>
              raise (Thrown (VJson (JStr
                "$.JsonRpcClient.notify used with no websocket and no http endpoint.")))
          | Some url => ajax (Some url) (toJSON request) AjaxNotify
          end
      end
  end.

(** [startBatch], lines 182-186. *)
Definition startBatch (this : nat) : M unit :=
  c <- get_client this ;;
  match _batch c with
  | None => update_client this (set_batch (Some []))
  | Some _ => ret tt
  end.

(** The loop of [endBatch], lines 218-229. *)
Fixpoint endBatch_collect (batch : list BatchEntry) (batch_request : list json)
    (handlers : gmap string Handlers) : M (list json * gmap string Handlers) :=
  match batch with
  | [] => ret (batch_request, handlers)
  | call :: rest =>
      let batch_request := batch_request ++ [request call] in
      has_id <- has_prop "id" (request call) ;;
      handlers <- (if has_id : bool
                   then id <- get_prop "id" (request call) ;;
                        ret (<[to_key id := handlers_of call]> handlers)
                   else ret handlers) ;;
      endBatch_collect rest batch_request handlers
  end.

(** [endBatch], lines 201-245. *)
Definition endBatch (this : nat) (all_done_cb error_cb : jsval) : M unit :=
  c <- get_client this ;;
  match _batch c with
  | None => ret tt
  | Some batch =>
      update_client this (set_batch None) ;;
      match batch with
      | [] => ret tt
      | _ =>
          collected <- endBatch_collect batch [] ∅ ;;
          ajax (ajaxUrl (options c)) (toJSON (JArr (fst collected)))
               (AjaxBatch (snd collected) all_done_cb error_cb)
      end
  end.

(** Lines 240-242: the [error] handler that [endBatch] gives to
    [$.ajax]. *)
Definition endBatch_error (error_cb : jsval)
    (jqXHR textStatus errorThrown : jsval) : M unit :=
  if is_function error_cb
  then invoke error_cb [jqXHR; textStatus; errorThrown]
  else ret tt.

(** One turn of the loop of [_batchCb], lines 255-269. *)
Definition _batchCb_response (response : json)
    (handlers : gmap string Handlers) : M unit :=
  failed <- has_prop "error" response ;;
  id <- get_prop "id" response ;;
  logs <- has_console ;;
  if failed : bool then
    if is_null id || key_in (to_key id) handlers then
      if logs : bool then console_log response else ret tt
    else
      error <- slot_get error_cb (lookup_slot (to_key id) handlers) ;;
      e <- get_prop "error" response ;;
      invoke error [e]
  else
    if key_in (to_key id) handlers && logs then console_log response
    else
      success <- slot_get success_cb (lookup_slot (to_key id) handlers) ;;
      result <- get_prop "result" response ;;
      invoke success [result].

Fixpoint _batchCb_loop (result : list json)
    (handlers : gmap string Handlers) : M unit :=
  match result with
  | [] => ret tt
  | response :: rest =>
      _batchCb_response response handlers ;;
      _batchCb_loop rest handlers
  end.

(** The values [result[i]] that [for (var i in result)] visits: the
    elements of an array, the own properties of an object, the characters
    of a string, and nothing for [null], a number or a boolean. *)
Definition for_in (result : json) : list json :=
  match result with
  | JArr items => items
  | JObj fields => map snd fields
  | JStr s => map (fun c => JStr (String c EmptyString)) (list_ascii_of_string s)
  | _ => []
  end.

(** [_batchCb], lines 253-273. *)
Definition _batchCb (result : json) (handlers : gmap string Handlers)
    (all_done_cb : jsval) : M unit :=
  _batchCb_loop (for_in result) handlers ;;
  if is_function all_done_cb
  then invoke all_done_cb [VJson result]
  else ret tt.

(** ** The surroundings *)

(** The socket opens: the browser sets [readyState] to 1 and calls
    [onopen]. *)
Definition socket_open (s : nat) : M unit :=
  update_socket s (set_readyState 1) ;;
  sk <- get_socket s ;;
  match sock_onopen sk with
  | Some (target, request_json) => socket_send target request_json
  | None => ret tt
  end.

(** A message arrives on a socket: the browser calls [onmessage]. *)
Definition socket_message (s : nat) (data : string) : M unit :=
  sk <- get_socket s ;;
  match sock_onmessage sk with
  | Some client => _wsOnMessage client data
  | None => ret tt
  end.

(** An HTTP exchange answers with a parsed body of status 200: [$.ajax]
    calls the [success] handler it was given. *)
Definition ajax_success (k : AjaxHandlers) (data : json) : M unit :=
  match k with
  | AjaxCall success_cb error_cb => call_success success_cb error_cb data
  | AjaxNotify => ret tt
  | AjaxBatch handlers all_done_cb _ => _batchCb data handlers all_done_cb
  end.
End Plugin.

(** ** Notions used in the statements *)

(** What [_wsOnMessage] does once it has picked a continuation [m]: when
    [m] returns, the handler returns; when [m] throws, the [catch] swallows
    the exception and the fallback handler is called. *)
Definition after_continuation (run_cb : Cb -> list jsval -> M unit)
    (this : nat) (event : string) (m : M unit) : M unit :=
  fun w => match m w with
           | Ret _ w' => Ret tt w'
           | Raise _ w' => fallback run_cb this event w'
           end.

(** The store after lines 308-321 of [_wsCall]: the text is sent, or the
    [onopen] handler of a socket that is still connecting is replaced. *)
Definition transmit (socket : nat) (sk : Socket) (request_json : string)
    (w : World) : World :=
  if (readyState sk <? 1)%Z
  then with_sockets (<[socket := set_onopen (Some (socket, request_json)) sk]> (sockets w)) w
  else with_trace (trace w ++ [EvSend socket request_json]) w.

Definition raises {A} (m : M A) (w : World) : Prop :=
  exists e w', m w = Raise e w'.

(** The only effect is a number of [console.log]s. *)
Definition only_logged (w : World) (o : outcome unit) : Prop :=
  exists logged, o = Ret tt (with_trace (trace w ++ map EvLog logged) w).

Definition request_id (request : json) : option json :=
  match request with JObj fields => assoc "id" fields | _ => None end.

Definition counter (this : nat) (w : World) : option Z :=
  _current_id <$> clients w !! this.

(** A computation that leaves the id counter of every client as it is,
    whether it returns or throws. *)
Definition keeps_counters {A} (m : M A) : Prop :=
  forall w k, counter k (world_of (m w)) = counter k w.

(** The arguments of one [call]. *)
Record CallArgs : Type := mkCallArgs {
  arg_method : json;
  arg_params : json;
  arg_success_cb : jsval;
  arg_error_cb : jsval
}.

(** The store after a run of [call]s on one client.  A call that throws
    leaves the store as it was at the throw, and the next call goes on
    from there. *)
Fixpoint after_calls (toJSON : json -> string)
    (run_getSocket : Cb -> nat -> M (option nat))
    (this : nat) (args : list CallArgs) (w : World) : World :=
  match args with
  | [] => w
  | a :: rest =>
      after_calls toJSON run_getSocket this rest
        (world_of (call toJSON run_getSocket this (arg_method a) (arg_params a)
                     (arg_success_cb a) (arg_error_cb a) w))
  end.

(** The outcome [o] of a method hands [request] on.  [w] is the store in
    which the method asks [getSocket] for a socket.  With a socket, the
    request goes to [_wsCall] with the continuations [hs]; without one and
    inside a batch, it is appended to the batch with [hs]; without one and
    outside a batch, it is serialized and posted to [ajaxUrl] with the
    handlers [k]; and with no [ajaxUrl] either, the method throws. *)
Definition hands_on (toJSON : json -> string)
    (run_getSocket : Cb -> nat -> M (option nat))
    (this : nat) (o : outcome unit) (request : json) (hs : Handlers)
    (k : AjaxHandlers) (w : World) : Prop :=
  forall sock w' c',
    options_getSocket run_getSocket this w = Ret sock w' ->
    clients w' !! this = Some c' ->
    match sock with
    | Some s => o = _wsCall toJSON this s request (success_cb hs) (error_cb hs) w'
    | None =>
        match _batch c' with
        | Some batch =>
            o = Ret tt (with_clients
                          (<[this := set_batch (Some (batch ++ [mkBatchEntry request hs])) c']>
                             (clients w')) w')
        | None =>
            match ajaxUrl (options c') with
            | Some url =>
                o = Ret tt (with_trace (trace w' ++ [EvAjax (Some url) (toJSON request) k]) w')
            | None => exists e, o = Raise e w'
            end
        end
    end.

(** One dispatch through [_wsCall]: the client, the request and its two
    continuations. *)
Record Dispatch : Type := mkDispatch {
  d_this : nat;
  d_request : list (string * json);
  d_success_cb : jsval;
  d_error_cb : jsval
}.

Fixpoint _wsCall_all (toJSON : json -> string) (socket : nat)
    (ds : list Dispatch) : M unit :=
  match ds with
  | [] => ret tt
  | d :: rest =>
      _wsCall toJSON (d_this d) socket (JObj (d_request d))
              (d_success_cb d) (d_error_cb d) ;;
      _wsCall_all toJSON socket rest
  end.

(** Whether [_wsCall] registers the dispatch, and under which key. *)
Definition d_registers (d : Dispatch) : bool :=
  has_own "id" (d_request d) && negb (is_undefined (d_success_cb d)).

Definition d_key (d : Dispatch) : string := to_key (member "id" (d_request d)).

(** The registry after a run of dispatches through [_wsCall]. *)
Definition registered (ds : list Dispatch) (r : gmap string Handlers) :
    gmap string Handlers :=
  foldl (fun r d =>
           if d_registers d
           then <[d_key d := mkHandlers (d_success_cb d) (d_error_cb d)]> r
           else r) r ds.

(** ** A host and some stores for the examples *)

Module Demo.

Definition quote : string := String (Ascii.ascii_of_nat 34) EmptyString.

(** A serializer for [$.toJSON]. *)
Fixpoint toJSON (j : json) : string :=
  match j with
  | JNull => "null"
  | JBool true => "true"
  | JBool false => "false"
  | JNum n => Z_to_string n
  | JStr s => (quote ++ s ++ quote)%string
  | JArr items =>
      ("[" ++ (fix join (l : list json) : string :=
                 match l with
                 | [] => ""
                 | [x] => toJSON x
                 | x :: rest => (toJSON x ++ "," ++ join rest)%string
                 end) items ++ "]")%string
  | JObj fields =>
      ("{" ++ (fix join (l : list (string * json)) : string :=
                 match l with
                 | [] => ""
                 | [(k, x)] => (quote ++ k ++ quote ++ ":" ++ toJSON x)%string
                 | (k, x) :: rest =>
                     (quote ++ k ++ quote ++ ":" ++ toJSON x ++ "," ++ join rest)%string
                 end) fields ++ "}")%string
  end.

Definition response_result (id : json) (result : json) : json :=
  JObj [("jsonrpc", JStr "2.0"); ("id", id); ("result", result)].

Definition response_error (id : json) (error : json) : json :=
  JObj [("jsonrpc", JStr "2.0"); ("id", id); ("error", error)].

Definition not_found : json :=
  JObj [("code", JNum (-32601)); ("message", JStr "Method not found")].

(** The texts that [$.parseJSON] reads in the examples; any other text
    is malformed. *)
Definition messages : list (string * json) :=
  [ ("result-1", response_result (JNum 1) (JStr "A"));
    ("error-1", response_error (JNum 1) not_found);
    ("result-7", response_result (JNum 7) (JStr "x")) ].

Definition parseJSON (text : string) : option json := assoc text messages.

(** Functions of the caller that return at once. *)
Definition run_cb (f : Cb) (args : list jsval) : M unit := ret tt.

(** A custom [getSocket] that has no socket. *)
Definition run_getSocket (f : Cb) (onmessage_cb : nat) : M (option nat) := ret None.

(** A browser window with a console and WebSockets, and nothing else
    yet. *)
Definition browser : World := mkWorld true true ∅ [] [] [].

Definition http_only : Options :=
  mkOptions (Some "/backend/jsonrpc") None (VJson JNull) DefaultGetSocket.

Definition ws_only (fallback : jsval) : Options :=
  mkOptions None (Some "ws://backend/jsonrpc") fallback DefaultGetSocket.

(** The batch of section 8 of the description: two calls, [a] with id 1
    and [b] with id 2, flushed by [endBatch]. *)
Definition batch_of_two : M unit :=
  this <- new_client http_only ;;
  startBatch this ;;
  call toJSON run_getSocket this (JStr "a") (JArr []) (VFun 11) (VFun 12) ;;
  call toJSON run_getSocket this (JStr "b") (JArr []) (VFun 21) (VFun 22) ;;
  endBatch toJSON this (VFun 30) (VFun 31).

Definition handlers_of_two : gmap string Handlers :=
  <["2" := mkHandlers (VFun 21) (VFun 22)]>
    (<["1" := mkHandlers (VFun 11) (VFun 12)]> ∅).

Definition request_of (method : string) (id : Z) : json :=
  JObj [ ("jsonrpc", JStr "2.0"); ("method", JStr method);
         ("params", JArr []); ("id", JNum id) ].

(** One client over HTTP, outside a batch, that has made one call. *)
Definition one_call : M unit :=
  this <- new_client http_only ;;
  call toJSON run_getSocket this (JStr "a") (JArr []) (VFun 11) (VFun 12).

(** A client with a fallback handler and no pending call. *)
Definition listening : World :=
  mkWorld true true ∅ [mkClient (ws_only (VFun 60)) None 1 None] [] [].

(** A client with no endpoint at all, outside a batch and inside one. *)
Definition no_endpoint (batch : option (list BatchEntry)) : World :=
  mkWorld true true ∅ [mkClient default_options None 1 batch] [] [].

(** Two clients and one socket that is still connecting. *)
Definition connecting : World :=
  mkWorld true true ∅
    [ mkClient (ws_only (VFun 60)) (Some 0%nat) 1 None;
      mkClient (ws_only (VFun 61)) None 1 None ]
    [ mkSocket "ws://backend/jsonrpc" 0 None (Some 0%nat) ] [].

(** Two clients and one open socket; client 0 has one pending call. *)
Definition pending_1 : World :=
  mkWorld true true {[ "1" := mkHandlers (VFun 11) (VFun 12) ]}
    [ mkClient (ws_only (VFun 60)) (Some 0%nat) 2 None;
      mkClient (ws_only (VFun 61)) None 1 None ]
    [ mkSocket "ws://backend/jsonrpc" 1 None (Some 0%nat) ] [].

(** Two new clients that each make their first call through a WebSocket
    of their own. *)
Definition first_calls_of_two_clients : M unit :=
  a <- new_client (ws_only (VFun 60)) ;;
  b <- new_client (ws_only (VFun 61)) ;;
  call toJSON run_getSocket a (JStr "a") (JArr []) (VFun 11) (VFun 12) ;;
  call toJSON run_getSocket b (JStr "b") (JArr []) (VFun 21) (VFun 22).

(** One new client that makes two calls before its WebSocket opens. *)
Definition two_calls_before_open : M unit :=
  this <- new_client (ws_only (VFun 60)) ;;
  call toJSON run_getSocket this (JStr "a") (JArr []) (VFun 11) (VFun 12) ;;
  call toJSON run_getSocket this (JStr "b") (JArr []) (VFun 21) (VFun 22) ;;
  socket_open 0.

End Demo.

(** ** Notions used in the further statements *)

(** Whether a parsed message passes the test of lines 343-345. *)
Definition is_response (v : json) : bool :=
  match v with
  | JObj fields => is_2_0 (member "jsonrpc" fields)
  | _ => false
  end.

(** The request object that [call] builds when the counter stands at [n]. *)
Definition call_request_of (method params : json) (n : Z) : json :=
  JObj [ ("jsonrpc", JStr "2.0"); ("method", method);
         ("params", params); ("id", JNum n) ].

(** One turn of the loop of [endBatch] on the handler map, for the
    requests that [call] and [notify] store, which are objects. *)
Definition handlers_step (handlers : gmap string Handlers) (e : BatchEntry) :
    gmap string Handlers :=
  match request e with
  | JObj fields =>
      if has_own "id" fields
      then <[to_key (member "id" fields) := handlers_of e]> handlers
      else handlers
  | _ => handlers
  end.

Definition batch_handlers (batch : list BatchEntry) : gmap string Handlers :=
  foldl handlers_step ∅ batch.

Definition is_object (v : json) : bool :=
  match v with JObj _ => true | _ => false end.

Definition entry_key (e : BatchEntry) : option string :=
  match request e with
  | JObj fields =>
      if has_own "id" fields then Some (to_key (member "id" fields)) else None
  | _ => None
  end.

(** A [call] or a [notify]. *)
Inductive Op : Type :=
  | OpCall (a : CallArgs)
  | OpNotify (method params : json).

Definition run_op (toJSON : json -> string)
    (run_getSocket : Cb -> nat -> M (option nat)) (this : nat) (op : Op) : M unit :=
  match op with
  | OpCall a =>
      call toJSON run_getSocket this (arg_method a) (arg_params a)
        (arg_success_cb a) (arg_error_cb a)
  | OpNotify method params => notify toJSON run_getSocket this method params
  end.

Fixpoint run_ops (toJSON : json -> string)
    (run_getSocket : Cb -> nat -> M (option nat)) (this : nat) (ops : list Op) : M unit :=
  match ops with
  | [] => ret tt
  | op :: rest =>
      run_op toJSON run_getSocket this op ;;
      run_ops toJSON run_getSocket this rest
  end.

(** The batch entries that a run of calls and notifies stores when the
    counter starts at [n], and the counter after the run. *)
Fixpoint entries_from (n : Z) (ops : list Op) : list BatchEntry :=
  match ops with
  | [] => []
  | OpCall a :: rest =>
      mkBatchEntry (call_request_of (arg_method a) (arg_params a) n)
                   (mkHandlers (arg_success_cb a) (arg_error_cb a))
      :: entries_from (n + 1) rest
  | OpNotify method params :: rest =>
      mkBatchEntry (notify_request method params) (mkHandlers VUndef VUndef)
      :: entries_from n rest
  end.

Fixpoint counter_after (n : Z) (ops : list Op) : Z :=
  match ops with
  | [] => n
  | OpCall _ :: rest => counter_after (n + 1) rest
  | OpNotify _ _ :: rest => counter_after n rest
  end.

(** An element of a batch answer that is an object whose id has a handler
    of its own in the map. *)
Definition answered (handlers : gmap string Handlers) (v : json) : Prop :=
  exists fields h,
    v = JObj fields /\ handlers !! to_key (member "id" fields) = Some h.

(** A client that reaches its sockets through the default [getSocket] and
    has no socket to reach: no [socketUrl], or no [WebSocket] in the
    window. *)
Definition no_socket (c : Client) (w : World) : Prop :=
  getSocket (options c) = DefaultGetSocket
  /\ (socketUrl (options c) = None \/ window_WebSocket w = false).

(** ** More stores for the examples *)

Module Cases.

Import Demo.

(** The texts of [Demo.messages] and a 2.0 response that has neither
    [result] nor [error]. *)
Definition messages : list (string * json) :=
  Demo.messages ++ [ ("ack-1", JObj [("jsonrpc", JStr "2.0"); ("id", JNum 1)]) ].

Definition parseJSON (text : string) : option json := assoc text messages.

(** A window without a console. *)
Definition no_console : World := mkWorld false true ∅ [] [] [].

(** One idle client that talks over HTTP only. *)
Definition idle_http : World :=
  mkWorld true true ∅ [mkClient http_only None 1 None] [] [].

(** Two calls with a notify between them. *)
Definition three_ops : list Op :=
  [ OpCall (mkCallArgs (JStr "a") (JArr []) (VFun 11) (VFun 12));
    OpNotify (JStr "n") (JArr []);
    OpCall (mkCallArgs (JStr "b") (JArr []) (VFun 21) (VFun 22)) ].

(** The client of [idle_http] once it has collected [three_ops]. *)
Definition collected : World :=
  mkWorld true true ∅
    [mkClient http_only None 3 (Some (entries_from 1 three_ops))] [] [].

(** A client inside a batch whose socket is open. *)
Definition open_in_batch : World :=
  mkWorld true true ∅
    [ mkClient (ws_only (VFun 60)) (Some 0%nat) 1 (Some []) ]
    [ mkSocket "ws://backend/jsonrpc" 1 None (Some 0%nat) ] [].

(** The arguments of some call. *)
Definition a_call : CallArgs := mkCallArgs (JStr "a") (JArr []) (VFun 11) (VFun 12).

(** A client at the top of its counter, inside a batch. *)
Definition at_max_id : World :=
  mkWorld true true ∅ [mkClient http_only None max_id (Some [])] [] [].

(** Another new client that makes its first call through a WebSocket of
    its own. *)
Definition another_first_call : M unit :=
  b <- new_client (ws_only (VFun 61)) ;;
  call toJSON run_getSocket b (JStr "c") (JArr []) (VFun 31) (VFun 32).


End Cases.

(** ** Properties *)

(** *** Reading and writing the store *)

Lemma get_client_Some this w c :
  clients w !! this = Some c -> get_client this w = Ret c w.
Proof. intros H. unfold get_client. now rewrite H. Qed.

Lemma get_client_None this w :
  clients w !! this = None ->
  get_client this w = Raise (TypeError "this is not a JsonRpcClient") w.
Proof. intros H. unfold get_client. now rewrite H. Qed.

Lemma update_client_Some this f w c :
  clients w !! this = Some c ->
  update_client this f w = Ret tt (with_clients (<[this := f c]> (clients w)) w).
Proof. intros H. unfold update_client, bind. now rewrite (get_client_Some _ _ _ H). Qed.

Lemma lookup_updated (this : nat) (c c' : Client) (cs : list Client) :
  cs !! this = Some c -> <[this := c']> cs !! this = Some c'.
Proof. intros H. apply list_lookup_insert_eq. eapply lookup_lt_Some, H. Qed.

Lemma with_callbacks_id w : with_callbacks (_ws_callbacks w) w = w.
Proof. now destruct w. Qed.

Lemma with_clients_id w : with_clients (clients w) w = w.
Proof. now destruct w. Qed.

Lemma member_Some name fields x :
  assoc name fields = Some x -> member name fields = VJson x.
Proof. intros H. unfold member. now rewrite H. Qed.

Lemma has_own_Some name fields x :
  assoc name fields = Some x -> has_own name fields = true.
Proof. intros H. unfold has_own. now rewrite H. Qed.

Lemma has_own_None name fields :
  assoc name fields = None -> has_own name fields = false.
Proof. intros H. unfold has_own. now rewrite H. Qed.

Lemma lookup_slot_Own k (obj : gmap string Handlers) h :
  obj !! k = Some h -> lookup_slot k obj = Own h.
Proof. intros H. unfold lookup_slot. now rewrite H. Qed.

(** Running a method on a store of which the hypotheses say enough:
    compute, rewrite with what is known, and again. *)
Ltac crunch :=
  repeat (progress (cbn -[lookup delete insert to_key inherited lookup_slot Z.ltb invoke];
                    repeat match goal with H : _ = _ |- _ => rewrite H end)).

Section Properties.

Variable toJSON : json -> string.
Variable parseJSON : string -> option json.
Variable run_cb : Cb -> list jsval -> M unit.
Variable run_getSocket : Cb -> nat -> M (option nat).

(** *** The batch accumulator *)

(** C8.  A second [startBatch] right after a first leaves the store as
    the first left it, and [startBatch] on a client that is collecting a
    batch, empty or not, changes nothing. *)
Theorem startBatch_idempotent (this : nat) (w : World) :
  (startBatch this ;; startBatch this) w = startBatch this w
  /\ (forall c batch,
        clients w !! this = Some c -> _batch c = Some batch ->
        startBatch this w = Ret tt w).
Proof.
  split.
  - unfold bind, startBatch at 1 3. unfold bind.
    destruct (clients w !! this) as [c|] eqn:Hc.
    + rewrite (get_client_Some _ _ _ Hc).
      destruct (_batch c) as [b|] eqn:Hb.
      * unfold ret, startBatch, bind. rewrite (get_client_Some _ _ _ Hc), Hb. reflexivity.
      * rewrite (update_client_Some _ _ _ _ Hc).
        unfold startBatch, bind, get_client. simpl.
        rewrite (lookup_updated _ _ _ _ Hc). reflexivity.
    + now rewrite (get_client_None _ _ Hc).
  - intros c batch Hc Hb. unfold startBatch, bind.
    now rewrite (get_client_Some _ _ _ Hc), Hb.
Qed.

(** *** The message handler *)

(** A JSON-RPC 2.0 response object passes the test of lines 343-345. *)
Lemma wsOnMessage_try_response this event fields w :
  parseJSON event = Some (JObj fields) ->
  assoc "jsonrpc" fields = Some (JStr "2.0") ->
  _wsOnMessage_try parseJSON run_cb this event w =
  (let response := JObj fields in
    resolves <- has_prop "result" response
                &&& (s <- pending this response ;; ret (truthy s)) ;;
    if resolves : bool then
      s <- pending this response ;;
      success <- slot_get success_cb s ;;
      delete_pending this response ;;
      result <- get_prop "result" response ;;
      invoke run_cb success [result] ;;
      ret true
    else
      rejects <- has_prop "error" response
                 &&& (s <- pending this response ;; ret (truthy s)) ;;
      if rejects : bool then
        s <- pending this response ;;
        error <- slot_get error_cb s ;;
        delete_pending this response ;;
        e <- get_prop "error" response ;;
        invoke run_cb error [e] ;;
        ret true
      else ret false) w.
Proof.
  intros Hp Hv. unfold _wsOnMessage_try, parse. rewrite Hp.
  unfold bind at 1. unfold ret at 1.
  unfold and_then at 1 2, bind at 1 2 3 4. unfold ret at 1. simpl.
  unfold ret at 1. rewrite (has_own_Some _ _ _ Hv).
  unfold ret at 1. rewrite (member_Some _ _ _ Hv). simpl. reflexivity.
Qed.

Lemma pending_Some this fields w c :
  clients w !! this = Some c ->
  pending this (JObj fields) w =
  Ret (lookup_slot (to_key (member "id" fields)) (_ws_callbacks w)) w.
Proof.
  intros Hc. unfold pending, callbacks_of, bind, get_prop, ret, get_world.
  now rewrite (get_client_Some _ _ _ Hc).
Qed.

Lemma pending_None this fields w :
  clients w !! this = None ->
  pending this (JObj fields) w = Raise (TypeError "this is not a JsonRpcClient") w.
Proof.
  intros Hc. unfold pending, callbacks_of, bind, get_prop, ret, get_world.
  now rewrite (get_client_None _ _ Hc).
Qed.

Lemma delete_pending_Some this fields w c :
  clients w !! this = Some c ->
  delete_pending this (JObj fields) w =
  Ret tt (with_callbacks (delete (to_key (member "id" fields)) (_ws_callbacks w)) w).
Proof.
  intros Hc. unfold delete_pending, bind, get_prop, ret, modify.
  now rewrite (get_client_Some _ _ _ Hc).
Qed.

Lemma fallback_no_client this event w :
  clients w !! this = None ->
  fallback run_cb this event w = Raise (TypeError "this is not a JsonRpcClient") w.
Proof. intros Hc. unfold fallback, bind. now rewrite (get_client_None _ _ Hc). Qed.

(** With no entry of its own under the id of the response, the handler
    does what the fallback does. *)
Lemma wsOnMessage_unmatched this event fields w :
  parseJSON event = Some (JObj fields) ->
  assoc "jsonrpc" fields = Some (JStr "2.0") ->
  _ws_callbacks w !! to_key (member "id" fields) = None ->
  _wsOnMessage parseJSON run_cb this event w = fallback run_cb this event w.
Proof.
  intros Hp Hv Hk. unfold _wsOnMessage, bind at 1, try_catch.
  rewrite (wsOnMessage_try_response _ _ _ _ Hp Hv). cbv zeta.
  assert (Hs : lookup_slot (to_key (member "id" fields)) (_ws_callbacks w) =
               if inherited (to_key (member "id" fields)) then Inherited else Missing).
  { unfold lookup_slot. now rewrite Hk. }
  pose proof (delete_id _ _ Hk) as Hd.
  unfold and_then, pending, delete_pending, callbacks_of, has_prop, get_prop,
    get_world, modify, bind, ret, get_client, fallback.
  destruct (clients w !! this) as [c|] eqn:Hc;
    destruct (has_own "result" fields), (has_own "error" fields),
      (inherited (to_key (member "id" fields)));
    crunch; rewrite ?with_callbacks_id; reflexivity.
Qed.

(** With an entry under the id of a response that carries [result], the
    entry is deleted and then its [success_cb] is called. *)
Lemma wsOnMessage_result this event fields w c h result :
  parseJSON event = Some (JObj fields) ->
  assoc "jsonrpc" fields = Some (JStr "2.0") ->
  clients w !! this = Some c ->
  _ws_callbacks w !! to_key (member "id" fields) = Some h ->
  assoc "result" fields = Some result ->
  _wsOnMessage parseJSON run_cb this event w =
  after_continuation run_cb this event
    (invoke run_cb (success_cb h) [VJson result])
    (with_callbacks (delete (to_key (member "id" fields)) (_ws_callbacks w)) w).
Proof.
  intros Hp Hv Hc Hk Hr. unfold _wsOnMessage, bind at 1, try_catch.
  rewrite (wsOnMessage_try_response _ _ _ _ Hp Hv). cbv zeta.
  pose proof (lookup_slot_Own _ _ _ Hk) as Hs.
  pose proof (has_own_Some _ _ _ Hr) as Hhas.
  pose proof (member_Some _ _ _ Hr) as Hm.
  unfold and_then, pending, delete_pending, callbacks_of, has_prop, get_prop,
    get_world, modify, bind, ret, get_client, after_continuation.
  crunch.
  now destruct (invoke run_cb (success_cb h) [VJson result] _).
Qed.

(** The same for a response that carries [error] and no [result]. *)
Lemma wsOnMessage_error this event fields w c h error :
  parseJSON event = Some (JObj fields) ->
  assoc "jsonrpc" fields = Some (JStr "2.0") ->
  clients w !! this = Some c ->
  _ws_callbacks w !! to_key (member "id" fields) = Some h ->
  assoc "result" fields = None ->
  assoc "error" fields = Some error ->
  _wsOnMessage parseJSON run_cb this event w =
  after_continuation run_cb this event
    (invoke run_cb (error_cb h) [VJson error])
    (with_callbacks (delete (to_key (member "id" fields)) (_ws_callbacks w)) w).
Proof.
  intros Hp Hv Hc Hk Hr He. unfold _wsOnMessage, bind at 1, try_catch.
  rewrite (wsOnMessage_try_response _ _ _ _ Hp Hv). cbv zeta.
  pose proof (lookup_slot_Own _ _ _ Hk) as Hs.
  pose proof (has_own_None _ _ Hr) as Hno.
  pose proof (has_own_Some _ _ _ He) as Hhas.
  pose proof (member_Some _ _ _ He) as Hm.
  unfold and_then, pending, delete_pending, callbacks_of, has_prop, get_prop,
    get_world, modify, bind, ret, get_client, after_continuation.
  crunch.
  now destruct (invoke run_cb (error_cb h) [VJson error] _).
Qed.

(** C4.  A response whose id has an entry in the registry has the entry
    deleted first and the matching continuation called in the store
    without it; a later response with the same id, in any store where the
    entry is gone, reaches no continuation and only the fallback. *)
Theorem wsOnMessage_at_most_once this event fields w c h :
  parseJSON event = Some (JObj fields) ->
  assoc "jsonrpc" fields = Some (JStr "2.0") ->
  clients w !! this = Some c ->
  _ws_callbacks w !! to_key (member "id" fields) = Some h ->
  let key := to_key (member "id" fields) in
  let w' := with_callbacks (delete key (_ws_callbacks w)) w in
  _ws_callbacks w' !! key = None
  /\ (forall result,
        assoc "result" fields = Some result ->
        _wsOnMessage parseJSON run_cb this event w =
        after_continuation run_cb this event
          (invoke run_cb (success_cb h) [VJson result]) w')
  /\ (forall error,
        assoc "result" fields = None ->
        assoc "error" fields = Some error ->
        _wsOnMessage parseJSON run_cb this event w =
        after_continuation run_cb this event
          (invoke run_cb (error_cb h) [VJson error]) w')
  /\ (forall w2,
        _ws_callbacks w2 !! key = None ->
        _wsOnMessage parseJSON run_cb this event w2 =
        fallback run_cb this event w2).
Proof.
  intros Hp Hv Hc Hk key w'. repeat split.
  - apply lookup_delete_eq.
  - intros result Hr. now apply wsOnMessage_result with (c := c).
  - intros error Hr He. now apply wsOnMessage_error with (c := c).
  - intros w2 Hk2. now apply wsOnMessage_unmatched with (fields := fields).
Qed.

(** What the handler does with a JSON-RPC 2.0 response whose id, [null]
    included, has no entry in the registry: it logs nothing and passes the
    message to the fallback handler, which is the [onmessage] option when
    that is a function and nothing otherwise.  No continuation of the
    registry is called. *)
Theorem wsOnMessage_unmatched_falls_through this event fields w c :
  parseJSON event = Some (JObj fields) ->
  assoc "jsonrpc" fields = Some (JStr "2.0") ->
  clients w !! this = Some c ->
  _ws_callbacks w !! to_key (member "id" fields) = None ->
  _wsOnMessage parseJSON run_cb this event w = fallback run_cb this event w
  /\ (is_function (onmessage (options c)) = false ->
      _wsOnMessage parseJSON run_cb this event w = Ret tt w)
  /\ (forall f,
        onmessage (options c) = VFun f ->
        _wsOnMessage parseJSON run_cb this event w =
        run_cb f [VEvent event] (with_trace (trace w ++ [EvInvoke f [VEvent event]]) w)).
Proof.
  intros Hp Hv Hc Hk.
  rewrite (wsOnMessage_unmatched _ _ _ _ Hp Hv Hk).
  unfold fallback, bind. rewrite (get_client_Some _ _ _ Hc).
  repeat split.
  - intros Hf. now rewrite Hf.
  - intros f Hf. rewrite Hf. reflexivity.
Qed.

(** *** Dispatch through a socket *)

(** What one [_wsCall] does to the store. *)
Lemma wsCall_registers this s fields scb ecb w c sk :
  clients w !! this = Some c ->
  sockets w !! s = Some sk ->
  has_own "id" fields = true ->
  is_undefined scb = false ->
  _wsCall toJSON this s (JObj fields) scb ecb w =
  Ret tt (with_callbacks
            (<[to_key (member "id" fields) := mkHandlers scb ecb]> (_ws_callbacks w))
            (transmit s sk (toJSON (JObj fields)) w)).
Proof.
  intros Hc Hs Hid Hu.
  unfold _wsCall, transmit, and_then, update_socket, socket_send, emit, has_prop,
    get_prop, get_socket, get_client, modify, bind, ret.
  destruct (readyState sk <? 1)%Z eqn:Hr; crunch; reflexivity.
Qed.

Lemma wsCall_silent this s fields scb ecb w sk :
  sockets w !! s = Some sk ->
  has_own "id" fields && negb (is_undefined scb) = false ->
  _wsCall toJSON this s (JObj fields) scb ecb w =
  Ret tt (transmit s sk (toJSON (JObj fields)) w).
Proof.
  intros Hs Hno.
  unfold _wsCall, transmit, and_then, update_socket, socket_send, emit, has_prop,
    get_prop, get_socket, get_client, modify, bind, ret.
  destruct (readyState sk <? 1)%Z eqn:Hr; crunch;
    destruct (has_own "id" fields); simpl in Hno; crunch; reflexivity.
Qed.

Lemma clients_transmit s sk text w : clients (transmit s sk text w) = clients w.
Proof. unfold transmit. now destruct (readyState sk <? 1)%Z. Qed.

Lemma sockets_transmit s sk text w s' sk' :
  sockets w !! s = Some sk ->
  sockets w !! s' = Some sk' ->
  exists sk'', sockets (transmit s sk text w) !! s' = Some sk''.
Proof.
  intros Hs Hs'. unfold transmit. destruct (readyState sk <? 1)%Z; simpl; eauto.
  destruct (decide (s = s')) as [->|Hne].
  - rewrite list_lookup_insert_eq; eauto using lookup_lt_Some.
  - rewrite list_lookup_insert_ne; eauto.
Qed.

(** C9.  The registry is one object for all clients: what client [a]
    registers is found, deleted and resolved by a response that arrives
    at client [b], and a registration by [b] under the same id replaces
    the entry of [a]. *)
Theorem ws_callbacks_shared a b s s' request request' scb ecb scb' ecb'
    event fields result w ca cb sk sk' :
  clients w !! a = Some ca ->
  clients w !! b = Some cb ->
  sockets w !! s = Some sk ->
  sockets w !! s' = Some sk' ->
  has_own "id" request = true ->
  has_own "id" request' = true ->
  is_undefined scb = false ->
  is_undefined scb' = false ->
  to_key (member "id" request') = to_key (member "id" request) ->
  parseJSON event = Some (JObj fields) ->
  assoc "jsonrpc" fields = Some (JStr "2.0") ->
  assoc "result" fields = Some result ->
  to_key (member "id" fields) = to_key (member "id" request) ->
  let key := to_key (member "id" request) in
  (exists w1,
      _wsCall toJSON a s (JObj request) scb ecb w = Ret tt w1
      /\ _ws_callbacks w1 !! key = Some (mkHandlers scb ecb)
      /\ _wsOnMessage parseJSON run_cb b event w1 =
         after_continuation run_cb b event (invoke run_cb scb [VJson result])
           (with_callbacks (delete key (_ws_callbacks w1)) w1))
  /\ (exists w2,
        (_wsCall toJSON a s (JObj request) scb ecb ;;
         _wsCall toJSON b s' (JObj request') scb' ecb') w = Ret tt w2
        /\ _ws_callbacks w2 !! key = Some (mkHandlers scb' ecb')).
Proof.
  intros Ha Hb Hs Hs' Hid Hid' Hu Hu' Hsame Hp Hv Hr Hkey key.
  pose proof (wsCall_registers a s request scb ecb w ca sk Ha Hs Hid Hu) as Hcall.
  set (w1 := with_callbacks _ _) in Hcall.
  assert (Hreg : _ws_callbacks w1 !! key = Some (mkHandlers scb ecb))
    by apply lookup_insert_eq.
  assert (Hb1 : clients w1 !! b = Some cb)
    by (subst w1; simpl; now rewrite clients_transmit).
  split.
  - exists w1. repeat split; [exact Hcall | exact Hreg |].
    subst key. rewrite <- Hkey in *.
    now apply (wsOnMessage_result b event fields w1 cb (mkHandlers scb ecb) result).
  - destruct (sockets_transmit s sk (toJSON (JObj request)) w s' sk' Hs Hs')
      as [sk'' Hs''].
    assert (Hs1 : sockets w1 !! s' = Some sk'') by (subst w1; exact Hs'').
    eexists. split.
    + unfold bind. rewrite Hcall.
      apply (wsCall_registers b s' request' scb' ecb' w1 cb sk'' Hb1 Hs1 Hid' Hu').
    + simpl. rewrite Hsame. apply lookup_insert_eq.
Qed.

(** One dispatch on a socket that is still connecting: nothing is sent,
    the [onopen] handler now holds this request, and the registry gains
    the entry of a call. *)
Lemma wsCall_connecting s d w sk :
  sockets w !! s = Some sk ->
  (readyState sk < 1)%Z ->
  is_Some (clients w !! d_this d) ->
  _wsCall toJSON (d_this d) s (JObj (d_request d)) (d_success_cb d) (d_error_cb d) w =
  Ret tt
    (with_callbacks
       (if d_registers d
        then <[d_key d := mkHandlers (d_success_cb d) (d_error_cb d)]> (_ws_callbacks w)
        else _ws_callbacks w)
       (with_sockets
          (<[s := set_onopen (Some (s, toJSON (JObj (d_request d)))) sk]> (sockets w)) w)).
Proof.
  intros Hs Hr [c Hc]. apply Z.ltb_lt in Hr.
  destruct (d_registers d) eqn:Hreg.
  - unfold d_registers in Hreg. apply andb_true_iff in Hreg as [Hid Hu].
    apply negb_true_iff in Hu.
    rewrite (wsCall_registers _ _ _ _ _ _ _ _ Hc Hs Hid Hu).
    unfold transmit. now rewrite Hr.
  - rewrite (wsCall_silent _ _ _ _ _ _ _ Hs Hreg).
    unfold transmit. rewrite Hr. reflexivity.
Qed.

Lemma registered_keeps ds (r : gmap string Handlers) k h :
  r !! k = Some h ->
  (forall d, d ∈ ds -> d_registers d = true -> d_key d <> k) ->
  registered ds r !! k = Some h.
Proof.
  revert r. induction ds as [|d ds IH]; intros r Hk Hfresh; [exact Hk|].
  simpl. apply IH.
  - destruct (d_registers d) eqn:Hreg; [|exact Hk].
    rewrite lookup_insert_ne; [exact Hk|].
    apply Hfresh; [apply list_elem_of_here | exact Hreg].
  - intros d' Hin. apply Hfresh. now apply list_elem_of_further.
Qed.

Lemma registered_lookup ds (r : gmap string Handlers) i d :
  ds !! i = Some d ->
  d_registers d = true ->
  (forall j d', (i < j)%nat -> ds !! j = Some d' ->
                d_registers d' = true -> d_key d' <> d_key d) ->
  registered ds r !! d_key d = Some (mkHandlers (d_success_cb d) (d_error_cb d)).
Proof.
  revert r i. induction ds as [|d0 ds IH]; intros r i Hi Hreg Hlater; [easy|].
  destruct i as [|i]; simpl in Hi.
  - injection Hi as ->. simpl. rewrite Hreg. apply registered_keeps.
    + apply lookup_insert_eq.
    + intros d' Hin Hreg'. apply list_elem_of_lookup in Hin as [j Hj].
      apply (Hlater (S j) d'); [lia | exact Hj | exact Hreg'].
  - simpl. apply (IH _ i Hi Hreg).
    intros j d' Hlt Hj. apply (Hlater (S j) d'); [lia | exact Hj].
Qed.

Lemma wsCall_all_connecting s ds w sk :
  sockets w !! s = Some sk ->
  (readyState sk < 1)%Z ->
  Forall (fun d => is_Some (clients w !! d_this d)) ds ->
  exists w' sk',
    _wsCall_all toJSON s ds w = Ret tt w'
    /\ trace w' = trace w
    /\ clients w' = clients w
    /\ _ws_callbacks w' = registered ds (_ws_callbacks w)
    /\ sockets w' !! s = Some sk'
    /\ readyState sk' = readyState sk
    /\ sock_onopen sk' =
       match last ds with
       | Some d => Some (s, toJSON (JObj (d_request d)))
       | None => sock_onopen sk
       end.
Proof.
  revert w sk. induction ds as [|d ds IH]; intros w sk Hs Hr Hall.
  - exists w, sk. now repeat split.
  - inversion Hall as [|? ? Hd Hrest]; subst.
    pose proof (wsCall_connecting s d w sk Hs Hr Hd) as Hstep.
    set (w1 := with_callbacks _ _) in Hstep.
    set (sk1 := set_onopen (Some (s, toJSON (JObj (d_request d)))) sk).
    assert (Hs1 : sockets w1 !! s = Some sk1).
    { subst w1. simpl. apply list_lookup_insert_eq. eapply lookup_lt_Some, Hs. }
    destruct (IH w1 sk1 Hs1 Hr Hrest) as (w' & sk' & Hrun & Ht & Hc & Hcb & Hsk & Hrs & Hopen).
    exists w', sk'. simpl. unfold bind. rewrite Hstep.
    repeat split; try assumption.
    destruct ds as [|d' ds']; [assumption|].
    change (last (d :: d' :: ds')) with (last (d' :: ds')). rewrite Hopen.
    destruct (last (d' :: ds')) eqn:Hlast; [reflexivity|].
    now apply last_None in Hlast.
Qed.

(** C10, as amended.  After any run of dispatches on a socket that is
    still connecting, the opening of the socket sends the text of the last
    dispatch and nothing else, while every call of the run whose id is not
    registered again later still has its entry in the registry at that
    point. *)
Theorem wsCall_connecting_keeps_last_only s earlier d w sk :
  sockets w !! s = Some sk ->
  (readyState sk < 1)%Z ->
  Forall (fun d => is_Some (clients w !! d_this d)) (earlier ++ [d]) ->
  exists w',
    (_wsCall_all toJSON s (earlier ++ [d]) ;; socket_open s) w = Ret tt w'
    /\ trace w' = trace w ++ [EvSend s (toJSON (JObj (d_request d)))]
    /\ (forall i e,
          (earlier ++ [d]) !! i = Some e ->
          d_registers e = true ->
          (forall j e', (i < j)%nat -> (earlier ++ [d]) !! j = Some e' ->
                        d_registers e' = true -> d_key e' <> d_key e) ->
          _ws_callbacks w' !! d_key e =
          Some (mkHandlers (d_success_cb e) (d_error_cb e))).
Proof.
  intros Hs Hr Hall.
  destruct (wsCall_all_connecting s (earlier ++ [d]) w sk Hs Hr Hall)
    as (w1 & sk1 & Hrun & Ht & Hc & Hcb & Hsk & Hrs & Hopen).
  rewrite last_snoc in Hopen.
  eexists. split; [|split].
  - unfold bind. rewrite Hrun.
    unfold socket_open, update_socket, socket_send, emit, get_socket, modify, bind, ret.
    rewrite Hsk. cbn -[lookup insert].
    rewrite (list_lookup_insert_eq (sockets w1) s); [|eapply lookup_lt_Some, Hsk].
    cbn -[lookup insert]. rewrite Hopen. reflexivity.
  - simpl. now rewrite Ht.
  - intros i e Hi Hreg Hlater. simpl. rewrite Hcb.
    now apply registered_lookup with (i := i).
Qed.

(** *** The id counter *)

Lemma keeps_ret {A} (a : A) : keeps_counters (ret a).
Proof. now intros w k. Qed.

Lemma keeps_raise {A} e : keeps_counters (@raise A e).
Proof. now intros w k. Qed.

Lemma keeps_bind {A B} (m : M A) (f : A -> M B) :
  keeps_counters m -> (forall a, keeps_counters (f a)) -> keeps_counters (bind m f).
Proof.
  intros Hm Hf w k. unfold bind. specialize (Hm w k).
  destruct (m w) as [a w1|e w1]; simpl in *; [|exact Hm].
  now rewrite Hf.
Qed.

Lemma keeps_and_then (a b : M bool) :
  keeps_counters a -> keeps_counters b -> keeps_counters (a &&& b).
Proof.
  intros Ha Hb. apply keeps_bind; [exact Ha|].
  intros [|]; [exact Hb | apply keeps_ret].
Qed.

Lemma keeps_get_world : keeps_counters get_world.
Proof. now intros w k. Qed.

Lemma keeps_get_client this : keeps_counters (get_client this).
Proof. intros w k. unfold get_client. now destruct (clients w !! this). Qed.

Lemma keeps_get_socket s : keeps_counters (get_socket s).
Proof. intros w k. unfold get_socket. now destruct (sockets w !! s). Qed.

Lemma keeps_modify f :
  (forall w, clients (f w) = clients w) -> keeps_counters (modify f).
Proof. intros Hf w k. unfold counter. simpl. now rewrite Hf. Qed.

Lemma keeps_emit e : keeps_counters (emit e).
Proof. now apply keeps_modify. Qed.

Lemma keeps_has_prop name v : keeps_counters (has_prop name v).
Proof. destruct v; first [apply keeps_ret | apply keeps_raise]. Qed.

Lemma keeps_get_prop name v : keeps_counters (get_prop name v).
Proof. destruct v; first [apply keeps_ret | apply keeps_raise]. Qed.

Lemma keeps_update_socket s f : keeps_counters (update_socket s f).
Proof.
  apply keeps_bind; [apply keeps_get_socket|]. intros sk. now apply keeps_modify.
Qed.

Lemma keeps_update_client this f :
  (forall c, _current_id (f c) = _current_id c) ->
  keeps_counters (update_client this f).
Proof.
  intros Hf w k. unfold update_client, bind, get_client, counter.
  destruct (clients w !! this) as [c|] eqn:Hc; [|reflexivity]. simpl.
  destruct (decide (this = k)) as [->|Hne].
  - rewrite (lookup_updated _ _ _ _ Hc), Hc. simpl. now rewrite Hf.
  - now rewrite list_lookup_insert_ne.
Qed.

Lemma keeps_new_WebSocket url : keeps_counters (new_WebSocket url).
Proof.
  apply keeps_bind; [apply keeps_get_world|]. intros w0.
  apply keeps_bind; [now apply keeps_modify|]. intros _.
  apply keeps_bind; [apply keeps_emit|]. intros _. apply keeps_ret.
Qed.

Lemma keeps_getSocket this onmessage_cb :
  keeps_counters (_getSocket this onmessage_cb).
Proof.
  apply keeps_bind; [apply keeps_get_client|]. intros c.
  apply keeps_bind; [apply keeps_get_world|]. intros w0.
  destruct (socketUrl (options c)) as [url|]; [|apply keeps_ret].
  destruct (negb (window_WebSocket w0)); [apply keeps_ret|].
  apply keeps_bind.
  { destruct (_ws_socket c) as [s|]; [|apply keeps_ret].
    apply keeps_bind; [apply keeps_get_socket|]. intros sk. apply keeps_ret. }
  intros fresh. apply keeps_bind.
  { destruct fresh; [|apply keeps_ret].
    apply keeps_bind; [apply keeps_new_WebSocket|]. intros s.
    apply keeps_bind; [now apply keeps_update_client|]. intros _.
    apply keeps_update_socket. }
  intros _. apply keeps_bind; [apply keeps_get_client|]. intros c'. apply keeps_ret.
Qed.

Lemma keeps_wsCall this s request scb ecb :
  keeps_counters (_wsCall toJSON this s request scb ecb).
Proof.
  apply keeps_bind; [apply keeps_get_socket|]. intros sk.
  apply keeps_bind.
  { destruct (readyState sk <? 1)%Z; [apply keeps_update_socket | apply keeps_emit]. }
  intros _. apply keeps_bind.
  { apply keeps_and_then; [apply keeps_has_prop | apply keeps_ret]. }
  intros [|]; [|apply keeps_ret].
  apply keeps_bind; [apply keeps_get_prop|]. intros id.
  apply keeps_bind; [apply keeps_get_client|]. intros _.
  now apply keeps_modify.
Qed.

Section Frame.
(** A custom [getSocket] that leaves the id counters alone. *)
Hypothesis getSocket_frame : forall f k, keeps_counters (run_getSocket f k).

Lemma keeps_options_getSocket this :
  keeps_counters (options_getSocket run_getSocket this).
Proof.
  apply keeps_bind; [apply keeps_get_client|]. intros c.
  destruct (getSocket (options c)); [apply keeps_getSocket | apply getSocket_frame].
Qed.

Lemma keeps_call_dispatch this request scb ecb :
  keeps_counters (call_dispatch toJSON run_getSocket this request scb ecb).
Proof.
  apply keeps_bind; [apply keeps_options_getSocket|]. intros [s|].
  - apply keeps_wsCall.
  - apply keeps_bind; [apply keeps_get_client|]. intros c.
    destruct (_batch c); [now apply keeps_update_client|].
    destruct (ajaxUrl (options c)); [apply keeps_emit | apply keeps_raise].
Qed.

Lemma keeps_notify this method params :
  keeps_counters (notify toJSON run_getSocket this method params).
Proof.
  apply keeps_bind; [apply keeps_options_getSocket|]. intros [s|].
  - apply keeps_wsCall.
  - apply keeps_bind; [apply keeps_get_client|]. intros c.
    destruct (_batch c); [now apply keeps_update_client|].
    destruct (ajaxUrl (options c)); [apply keeps_emit | apply keeps_raise].
Qed.

Lemma js_incr_below n : (n < max_id)%Z -> js_incr n = (n + 1)%Z.
Proof. intros H. unfold js_incr. now rewrite (proj2 (Z.ltb_lt _ _) H). Qed.

Lemma js_incr_min n : (n <= max_id)%Z -> js_incr n = Z.min (n + 1) max_id.
Proof.
  intros H. unfold js_incr. destruct (n <? max_id)%Z eqn:Hlt.
  - apply Z.ltb_lt in Hlt. lia.
  - apply Z.ltb_ge in Hlt. lia.
Qed.

Lemma call_request_Some this method params w c :
  clients w !! this = Some c ->
  call_request this method params w =
  Ret (JObj [ ("jsonrpc", JStr "2.0"); ("method", method);
              ("params", params); ("id", JNum (_current_id c)) ])
      (with_clients (<[this := set_current_id (js_incr (_current_id c)) c]> (clients w)) w).
Proof.
  intros Hc. unfold call_request, bind.
  now rewrite (get_client_Some _ _ _ Hc), (update_client_Some _ _ _ _ Hc).
Qed.

(** [call] hands on the request that carries the counter as its id, in
    the store where the counter has been incremented. *)
Lemma call_hands_on this method params scb ecb w c :
  clients w !! this = Some c ->
  hands_on toJSON run_getSocket this
    (call toJSON run_getSocket this method params scb ecb w)
    (call_request_of method params (_current_id c))
    (mkHandlers scb ecb) (AjaxCall scb ecb)
    (with_clients (<[this := set_current_id (js_incr (_current_id c)) c]> (clients w)) w).
Proof.
  intros Hc sock w' c' Hsock Hc'.
  unfold call, bind. rewrite (call_request_Some _ _ _ _ _ Hc).
  unfold call_dispatch, bind. rewrite Hsock.
  destruct sock as [s|]; [reflexivity|].
  rewrite (get_client_Some _ _ _ Hc').
  destruct (_batch c') as [batch|].
  - now rewrite (update_client_Some _ _ _ _ Hc').
  - destruct (ajaxUrl (options c')); [reflexivity | eexists; reflexivity].
Qed.

(** [notify] hands on its request, which has no [id], in the store it
    was called in. *)
Lemma notify_hands_on this method params w :
  hands_on toJSON run_getSocket this
    (notify toJSON run_getSocket this method params w)
    (notify_request method params)
    (mkHandlers VUndef VUndef) AjaxNotify w.
Proof.
  intros sock w' c' Hsock Hc'.
  unfold notify, bind. rewrite Hsock.
  destruct sock as [s|]; [reflexivity|].
  rewrite (get_client_Some _ _ _ Hc').
  destruct (_batch c') as [batch|].
  - now rewrite (update_client_Some _ _ _ _ Hc').
  - destruct (ajaxUrl (options c')); [reflexivity | eexists; reflexivity].
Qed.

(** The counter after one call, whether the call returns or throws. *)
Lemma counter_after_call this method params scb ecb w c :
  clients w !! this = Some c ->
  counter this (world_of (call toJSON run_getSocket this method params scb ecb w))
  = Some (js_incr (_current_id c)).
Proof.
  intros Hc. unfold call, bind. rewrite (call_request_Some _ _ _ _ _ Hc).
  cbn beta iota. rewrite keeps_call_dispatch.
  unfold counter. simpl. now rewrite (lookup_updated _ _ _ _ Hc).
Qed.

(** The counter after a run of calls: it has moved by the number of the
    calls, and stops at 2^53. *)
Lemma counter_after_calls this args : forall w c,
  clients w !! this = Some c ->
  (_current_id c <= max_id)%Z ->
  counter this (after_calls toJSON run_getSocket this args w)
  = Some (Z.min (_current_id c + Z.of_nat (length args)) max_id).
Proof.
  induction args as [|a args IH]; intros w c Hc Hle.
  - cbn [after_calls length]. unfold counter. rewrite Hc. simpl. f_equal. lia.
  - cbn [after_calls length].
    pose proof (counter_after_call this (arg_method a) (arg_params a)
                  (arg_success_cb a) (arg_error_cb a) w c Hc) as Hk.
    set (w1 := world_of _) in *. unfold counter in Hk.
    destruct (clients w1 !! this) as [c1|] eqn:Hc1; [|discriminate Hk].
    injection Hk as Hk. rewrite (js_incr_min _ Hle) in Hk.
    rewrite (IH w1 c1 Hc1) by lia. f_equal. lia.
Qed.

(** C5, as amended.  On a new client, a run of fewer than 2^53 calls hands
    on requests whose ids are 1, 2, 3, ... in the order of the calls, so
    they increase strictly: the call at position [i] of the run, counted
    from 0, finds the counter at [1 + i], hands on a request with that id
    and leaves the counter at [2 + i].  [notify] hands on a request
    without [id] and leaves every counter where it was. *)
Theorem call_ids_increase_from_1 opts args w :
  (Z.of_nat (length args) < max_id)%Z ->
  let this := length (clients w) in
  let w0 := world_of (new_client opts w) in
  (forall (i : nat) a,
     args !! i = Some a ->
     let wi := after_calls toJSON run_getSocket this (take i args) w0 in
     exists ci,
       clients wi !! this = Some ci
       /\ _current_id ci = (1 + Z.of_nat i)%Z
       /\ hands_on toJSON run_getSocket this
            (call toJSON run_getSocket this (arg_method a) (arg_params a)
               (arg_success_cb a) (arg_error_cb a) wi)
            (call_request_of (arg_method a) (arg_params a) (1 + Z.of_nat i))
            (mkHandlers (arg_success_cb a) (arg_error_cb a))
            (AjaxCall (arg_success_cb a) (arg_error_cb a))
            (with_clients
               (<[this := set_current_id (2 + Z.of_nat i) ci]> (clients wi)) wi))
  /\ (forall this' method params w',
        request_id (notify_request method params) = None
        /\ hands_on toJSON run_getSocket this'
             (notify toJSON run_getSocket this' method params w')
             (notify_request method params) (mkHandlers VUndef VUndef) AjaxNotify w'
        /\ (forall k,
              counter k (world_of (notify toJSON run_getSocket this' method params w'))
              = counter k w')).
Proof.
  intros Hlen this w0. split.
  - intros i a Hi wi.
    assert (Hnew : clients w0 !! this = Some (mkClient opts None 1 None)).
    { subst w0 this. simpl. rewrite lookup_app_r by lia.
      now rewrite Nat.sub_diag. }
    pose proof (lookup_lt_Some _ _ _ Hi) as Hlt.
    pose proof (counter_after_calls this (take i args) w0 _ Hnew) as Hk.
    fold wi in Hk. rewrite length_take in Hk. cbn [_current_id] in Hk.
    unfold max_id in *. specialize (Hk ltac:(lia)).
    replace (Z.min (1 + Z.of_nat (i `min` length args)) 9007199254740992)
      with (1 + Z.of_nat i)%Z in Hk by lia.
    unfold counter in Hk. destruct (clients wi !! this) as [ci|] eqn:Hci; [|discriminate Hk].
    injection Hk as Hk. exists ci. split; [reflexivity|]. split; [exact Hk|].
    pose proof (call_hands_on this (arg_method a) (arg_params a)
                  (arg_success_cb a) (arg_error_cb a) wi ci Hci) as Hcall.
    rewrite Hk in Hcall. rewrite js_incr_below in Hcall by (unfold max_id; lia).
    replace (2 + Z.of_nat i)%Z with (1 + Z.of_nat i + 1)%Z by lia. exact Hcall.
  - intros this' method params w'. split; [reflexivity|]. split.
    + apply notify_hands_on.
    + intros k. apply keeps_notify.
Qed.

(** Past 2^53 the ids repeat: a call that finds the counter at 2^53 hands
    on a request with the id 2^53 and leaves the counter at 2^53. *)
Lemma call_ids_stop_at_max_id this method params scb ecb w c :
  clients w !! this = Some c ->
  _current_id c = max_id ->
  hands_on toJSON run_getSocket this
    (call toJSON run_getSocket this method params scb ecb w)
    (call_request_of method params max_id)
    (mkHandlers scb ecb) (AjaxCall scb ecb) w
  /\ counter this (world_of (call toJSON run_getSocket this method params scb ecb w))
     = Some max_id.
Proof.
  intros Hc Hmax. split.
  - pose proof (call_hands_on this method params scb ecb w c Hc) as Hcall.
    rewrite Hmax in Hcall. change (js_incr max_id) with max_id in Hcall.
    replace (set_current_id max_id c) with c in Hcall
      by (destruct c; simpl in *; now subst).
    rewrite list_insert_id in Hcall by exact Hc.
    now rewrite with_clients_id in Hcall.
  - rewrite (counter_after_call _ _ _ _ _ _ _ Hc), Hmax. reflexivity.
Qed.

End Frame.

(** *** The handlers given to [$.ajax] *)

(** A body with an [error] member: the error continuation is called, and
    when it returns the success continuation is called too. *)
Lemma call_success_error_member scb ecb fields error w :
  assoc "error" fields = Some error ->
  call_success run_cb scb ecb (JObj fields) w =
  (invoke run_cb ecb [VJson error] ;;
   invoke run_cb scb [member "result" fields]) w.
Proof.
  intros He. unfold call_success, has_prop, get_prop, bind, ret.
  now rewrite (has_own_Some _ _ _ He), (member_Some _ _ _ He).
Qed.

(** *** The batch callback *)

(** An element with [result] whose id has a handler is logged when the
    window has a console, and its continuation is not called. *)
Lemma batchCb_result_logged fields (handlers : gmap string Handlers) h w :
  assoc "error" fields = None ->
  handlers !! to_key (member "id" fields) = Some h ->
  window_console w = true ->
  _batchCb_response run_cb (JObj fields) handlers w = console_log (JObj fields) w.
Proof.
  intros He Hk Hw. pose proof (has_own_None _ _ He) as Hno.
  pose proof (lookup_slot_Own _ _ _ Hk) as Hs.
  unfold _batchCb_response, key_in, has_console, has_prop, get_prop, get_world, bind, ret.
  crunch. reflexivity.
Qed.

(** An element with [error] whose id has a handler is logged, or passed
    over without a console; its continuation is not called. *)
Lemma batchCb_error_logged fields (handlers : gmap string Handlers) h error w :
  assoc "error" fields = Some error ->
  handlers !! to_key (member "id" fields) = Some h ->
  _batchCb_response run_cb (JObj fields) handlers w =
  (if window_console w then console_log (JObj fields) w else Ret tt w).
Proof.
  intros He Hk. pose proof (has_own_Some _ _ _ He) as Hhas.
  pose proof (lookup_slot_Own _ _ _ Hk) as Hs.
  unfold _batchCb_response, key_in, has_console, has_prop, get_prop, get_world, bind, ret.
  crunch. rewrite orb_true_r. now destruct (window_console w).
Qed.

(** An element whose id is in no way in the handler map and is not a
    [null] error throws, and the loop and the completion callback are
    abandoned. *)
Lemma batchCb_unknown_id_throws fields rest (handlers : gmap string Handlers)
    all_done_cb w :
  lookup_slot (to_key (member "id" fields)) handlers = Missing ->
  is_null (member "id" fields) && has_own "error" fields = false ->
  _batchCb run_cb (JArr (JObj fields :: rest)) handlers all_done_cb w =
  Raise (TypeError "cannot read a property of undefined") w.
Proof.
  intros Hs Hnull.
  unfold _batchCb, for_in, _batchCb_loop, _batchCb_response, key_in, has_console,
    has_prop, get_prop, get_world, bind, ret.
  rewrite Hs.
  destruct (has_own "error" fields), (is_null (member "id" fields)),
    (window_console w); try discriminate; reflexivity.
Qed.

(** *** Calls without an endpoint *)

(** C7, as amended.  With no socket to be had and no [ajaxUrl], [call]
    and [notify] throw to their caller when no batch is open; when a
    batch is open they append the request to it and return. *)
Theorem call_notify_without_endpoint this method params scb ecb w w' c :
  options_getSocket run_getSocket this w = Ret None w' ->
  clients w' !! this = Some c ->
  ajaxUrl (options c) = None ->
  (_batch c = None ->
   (forall w0 request,
      call_request this method params w0 = Ret request w ->
      call toJSON run_getSocket this method params scb ecb w0 =
      Raise (Thrown (VJson (JStr
        "$.JsonRpcClient.call used with no websocket and no http endpoint."))) w')
   /\ notify toJSON run_getSocket this method params w =
      Raise (Thrown (VJson (JStr
        "$.JsonRpcClient.notify used with no websocket and no http endpoint."))) w')
  /\ (forall batch,
        _batch c = Some batch ->
        (forall w0 request,
           call_request this method params w0 = Ret request w ->
           call toJSON run_getSocket this method params scb ecb w0 =
           Ret tt (with_clients
                     (<[this := set_batch
                          (Some (batch ++ [mkBatchEntry request (mkHandlers scb ecb)])) c]>
                        (clients w')) w'))
        /\ notify toJSON run_getSocket this method params w =
           Ret tt (with_clients
                     (<[this := set_batch
                          (Some (batch ++ [mkBatchEntry (notify_request method params)
                                             (mkHandlers VUndef VUndef)])) c]>
                        (clients w')) w')).
Proof.
  intros Hsock Hc Hurl. split.
  - intros Hb. split.
    + intros w0 request Hreq. unfold call, call_dispatch, bind.
      rewrite Hreq, Hsock, (get_client_Some _ _ _ Hc), Hb, Hurl. reflexivity.
    + unfold notify, bind.
      rewrite Hsock, (get_client_Some _ _ _ Hc), Hb, Hurl. reflexivity.
  - intros batch Hb. split.
    + intros w0 request Hreq. unfold call, call_dispatch, bind.
      rewrite Hreq, Hsock, (get_client_Some _ _ _ Hc), Hb.
      now rewrite (update_client_Some _ _ _ _ Hc).
    + unfold notify, bind.
      rewrite Hsock, (get_client_Some _ _ _ Hc), Hb.
      now rewrite (update_client_Some _ _ _ _ Hc).
Qed.
End Properties.

(** ** The examples *)

Import Demo.

(** C1.  The batch of two calls [a] (id 1) and [b] (id 2) is flushed in a
    browser with a console.  The answer [[{id 2, result B}, {id 1, result
    A}]] is logged element by element and neither success continuation is
    called; an answer with an error for id 1 is logged and the error
    continuation of id 1 is not called.  Only the completion callback
    runs. *)
Theorem batchCb_logs_what_it_should_deliver :
  exists w1 data,
    batch_of_two browser = Ret tt w1
    /\ trace w1 = [EvAjax (Some "/backend/jsonrpc") data
                     (AjaxBatch handlers_of_two (VFun 30) (VFun 31))]
    /\ handlers_of_two !! "1" = Some (mkHandlers (VFun 11) (VFun 12))
    /\ handlers_of_two !! "2" = Some (mkHandlers (VFun 21) (VFun 22))
    /\ (let answer := JArr [ response_result (JNum 2) (JStr "B");
                             response_result (JNum 1) (JStr "A") ] in
        ajax_success run_cb (AjaxBatch handlers_of_two (VFun 30) (VFun 31)) answer w1 =
        Ret tt (with_trace
                  (trace w1 ++ [ EvLog (response_result (JNum 2) (JStr "B"));
                                 EvLog (response_result (JNum 1) (JStr "A"));
                                 EvInvoke 30 [VJson answer] ]) w1))
    /\ (let answer := JArr [ response_error (JNum 1) not_found ] in
        ajax_success run_cb (AjaxBatch handlers_of_two (VFun 30) (VFun 31)) answer w1 =
        Ret tt (with_trace
                  (trace w1 ++ [ EvLog (response_error (JNum 1) not_found);
                                 EvInvoke 30 [VJson answer] ]) w1)).
Proof.
  eexists. eexists. split; [vm_compute; reflexivity|].
  repeat split; reflexivity.
Qed.

(** C2.  A single call over HTTP is answered with status 200 and a body
    that has an [error] member: the error continuation is called with the
    error object, and then the success continuation is called as well, with
    [undefined]. *)
Theorem call_success_calls_both_continuations :
  exists w1 data,
    one_call browser = Ret tt w1
    /\ trace w1 = [EvAjax (Some "/backend/jsonrpc") data (AjaxCall (VFun 11) (VFun 12))]
    /\ ajax_success run_cb (AjaxCall (VFun 11) (VFun 12))
         (response_error (JNum 1) not_found) w1 =
       Ret tt (with_trace
                 (trace w1 ++ [ EvInvoke 12 [VJson not_found];
                                EvInvoke 11 [VUndef] ]) w1).
Proof.
  eexists. eexists. split; [vm_compute; reflexivity|].
  split; reflexivity.
Qed.

(** C3.  The same batch is answered with one element whose id, 7, belongs
    to no call of the batch: [_batchCb] throws a TypeError at that element
    and the completion callback is not called. *)
Theorem batchCb_unknown_id_skips_completion :
  exists w1,
    batch_of_two browser = Ret tt w1
    /\ ajax_success run_cb (AjaxBatch handlers_of_two (VFun 30) (VFun 31))
         (JArr [ response_result (JNum 7) (JStr "x") ]) w1 =
       Raise (TypeError "cannot read a property of undefined") w1
    /\ ajax_success run_cb (AjaxBatch handlers_of_two (VFun 30) (VFun 31))
         (JArr [ response_result JNull (JStr "x") ]) w1 =
       Raise (TypeError "cannot read a property of undefined") w1.
Proof.
  eexists. split; [vm_compute; reflexivity|].
  split; reflexivity.
Qed.

(** Both first calls carry id 1, and the one registry keeps the entry of
    the second client only. *)
Example first_calls_collide :
  exists w',
    first_calls_of_two_clients browser = Ret tt w'
    /\ _ws_callbacks w' = {[ "1" := mkHandlers (VFun 21) (VFun 22) ]}
    /\ counter 0 w' = Some 2%Z /\ counter 1 w' = Some 2%Z.
Proof. eexists. split; [vm_compute; reflexivity|]. repeat split; reflexivity. Qed.

(** Of two calls made while the socket connects, the second alone is sent
    when it opens; both stay registered. *)
Example second_call_alone_is_sent :
  exists w',
    two_calls_before_open browser = Ret tt w'
    /\ trace w' = [ EvNewSocket 0 "ws://backend/jsonrpc";
                    EvSend 0 (toJSON (request_of "b" 2)) ]
    /\ _ws_callbacks w' !! "1" = Some (mkHandlers (VFun 11) (VFun 12))
    /\ _ws_callbacks w' !! "2" = Some (mkHandlers (VFun 21) (VFun 22)).
Proof. eexists. split; [vm_compute; reflexivity|]. repeat split; reflexivity. Qed.

(** C6.  A response with the unknown id 7 reaches a client that has a
    handler for other messages.  It should be logged and dropped; the code
    logs nothing and calls that handler with the event, as if the message
    were not a response. *)
Lemma wsOnMessage_unmatched_is_not_logged :
  parseJSON "result-7" = Some (response_result (JNum 7) (JStr "x"))
  /\ _ws_callbacks listening !! "7" = None
  /\ _wsOnMessage parseJSON run_cb 0 "result-7" listening =
     Ret tt (with_trace [EvInvoke 60 [VEvent "result-7"]] listening)
  /\ ~ only_logged listening (_wsOnMessage parseJSON run_cb 0 "result-7" listening).
Proof.
  repeat split; try reflexivity.
  intros [logged H]. vm_compute in H.
  destruct logged; discriminate H.
Qed.

(** C10 as stated fails: the entry of the lost request does not stay
    pending for ever.  A client makes two calls while its socket connects
    and the socket opens: the first request is never sent and its entry,
    under the id 1, is pending.  Then another client makes its first call,
    which has the id 1 as well, and the entry is replaced. *)
Lemma lost_entry_is_replaced :
  exists w1 w2,
    two_calls_before_open browser = Ret tt w1
    /\ trace w1 = [ EvNewSocket 0 "ws://backend/jsonrpc";
                    EvSend 0 (toJSON (request_of "b" 2)) ]
    /\ _ws_callbacks w1 !! "1" = Some (mkHandlers (VFun 11) (VFun 12))
    /\ Cases.another_first_call w1 = Ret tt w2
    /\ _ws_callbacks w2 !! "1" = Some (mkHandlers (VFun 31) (VFun 32))
    /\ _ws_callbacks w2 !! "1" <> _ws_callbacks w1 !! "1".
Proof.
  eexists. eexists. split; [vm_compute; reflexivity|].
  split; [reflexivity|]. split; [reflexivity|].
  split; [vm_compute; reflexivity|]. split; [reflexivity|]. discriminate.
Qed.

(** C7 as stated fails: a client with no endpoint at all is inside a
    batch.  [call] and [notify] return, having stored the request. *)
Lemma call_in_open_batch_does_not_raise :
  options_getSocket run_getSocket 0 (no_endpoint (Some [])) = Ret None (no_endpoint (Some []))
  /\ ajaxUrl default_options = None
  /\ ~ raises (call toJSON run_getSocket 0 (JStr "a") (JArr []) (VFun 11) (VFun 12))
              (no_endpoint (Some []))
  /\ ~ raises (notify toJSON run_getSocket 0 (JStr "a") (JArr []))
              (no_endpoint (Some [])).
Proof.
  repeat split; try reflexivity; intros (e & w' & H); vm_compute in H; discriminate H.
Qed.

(** ** The theorems at concrete inputs *)

Lemma startBatch_idempotent_witness :
  startBatch 0 (no_endpoint (Some [])) = Ret tt (no_endpoint (Some [])).
Proof.
  apply (proj2 (startBatch_idempotent 0 (no_endpoint (Some [])))
           (mkClient default_options None 1 (Some [])) []); reflexivity.
Defined.

Lemma wsOnMessage_at_most_once_witness :
  _wsOnMessage parseJSON run_cb 1 "result-1" pending_1 =
  Ret tt (with_trace [EvInvoke 11 [VJson (JStr "A")]] (with_callbacks ∅ pending_1)).
Proof.
  destruct (wsOnMessage_at_most_once parseJSON run_cb 1 "result-1"
              [("jsonrpc", JStr "2.0"); ("id", JNum 1); ("result", JStr "A")]
              pending_1 (mkClient (ws_only (VFun 61)) None 1 None)
              (mkHandlers (VFun 11) (VFun 12))
              eq_refl eq_refl eq_refl eq_refl) as (_ & Hresult & _).
  rewrite (Hresult (JStr "A") eq_refl). reflexivity.
Defined.

Lemma wsOnMessage_unmatched_falls_through_witness :
  _wsOnMessage parseJSON run_cb 0 "result-7" listening =
  Ret tt (with_trace [EvInvoke 60 [VEvent "result-7"]] listening).
Proof.
  destruct (wsOnMessage_unmatched_falls_through parseJSON run_cb 0 "result-7"
              [("jsonrpc", JStr "2.0"); ("id", JNum 7); ("result", JStr "x")]
              listening (mkClient (ws_only (VFun 60)) None 1 None)
              eq_refl eq_refl eq_refl eq_refl) as (_ & _ & Hfun).
  rewrite (Hfun 60%nat eq_refl). reflexivity.
Defined.

Lemma call_notify_without_endpoint_witness :
  notify toJSON run_getSocket 0 (JStr "a") (JArr []) (no_endpoint None) =
  Raise (Thrown (VJson (JStr
    "$.JsonRpcClient.notify used with no websocket and no http endpoint.")))
    (no_endpoint None).
Proof.
  destruct (call_notify_without_endpoint toJSON run_getSocket 0 (JStr "a") (JArr [])
              (VFun 11) (VFun 12) (no_endpoint None) (no_endpoint None)
              (mkClient default_options None 1 None)
              eq_refl eq_refl eq_refl) as (Hidle & _).
  exact (proj2 (Hidle eq_refl)).
Defined.

Lemma call_ids_increase_from_1_witness :
  let w2 := after_calls toJSON run_getSocket 0
              [ mkCallArgs (JStr "a") (JArr []) (VFun 11) (VFun 12);
                mkCallArgs (JStr "b") (JArr []) (VFun 21) (VFun 22) ]
              (world_of (new_client http_only browser)) in
  call toJSON run_getSocket 0 (JStr "c") (JArr []) VUndef VUndef w2 =
  Ret tt
    (with_trace
       (trace w2 ++ [EvAjax (Some "/backend/jsonrpc") (toJSON (request_of "c" 3))
                       (AjaxCall VUndef VUndef)])
       (with_clients [mkClient http_only None 4 None] w2)).
Proof.
  intros w2.
  destruct (call_ids_increase_from_1 toJSON run_getSocket
              (fun f k w j => eq_refl) http_only
              [ mkCallArgs (JStr "a") (JArr []) (VFun 11) (VFun 12);
                mkCallArgs (JStr "b") (JArr []) (VFun 21) (VFun 22);
                mkCallArgs (JStr "c") (JArr []) VUndef VUndef ]
              browser eq_refl) as [Hcalls _].
  destruct (Hcalls 2%nat (mkCallArgs (JStr "c") (JArr []) VUndef VUndef) eq_refl)
    as (c2 & Hc2 & _ & Hcall).
  injection Hc2 as <-.
  exact (Hcall None _ _ eq_refl eq_refl).
Defined.

(** C5 as stated fails: on a new client, call number 2^53 and call number
    2^53 + 1 both find the counter at 2^53, so both hand on a request with
    the id 2^53. *)
Lemma call_ids_repeat_past_2_53 :
  let w0 := world_of (new_client http_only browser) in
  let after n :=
    after_calls toJSON run_getSocket 0 (replicate n Cases.a_call) w0 in
  let w1 := after (Z.to_nat max_id - 1)%nat in
  let w2 := after (Z.to_nat max_id) in
  counter 0 w1 = Some max_id
  /\ counter 0 w2 = Some max_id
  /\ hands_on toJSON run_getSocket 0
       (call toJSON run_getSocket 0 (JStr "a") (JArr []) (VFun 11) (VFun 12) w1)
       (call_request_of (JStr "a") (JArr []) max_id)
       (mkHandlers (VFun 11) (VFun 12)) (AjaxCall (VFun 11) (VFun 12)) w1
  /\ hands_on toJSON run_getSocket 0
       (call toJSON run_getSocket 0 (JStr "a") (JArr []) (VFun 11) (VFun 12) w2)
       (call_request_of (JStr "a") (JArr []) max_id)
       (mkHandlers (VFun 11) (VFun 12)) (AjaxCall (VFun 11) (VFun 12)) w2.
Proof.
  intros w0 after w1 w2.
  assert (Hframe : forall f k, keeps_counters (run_getSocket f k))
    by (intros f k w j; reflexivity).
  assert (Hnew : clients w0 !! 0%nat = Some (mkClient http_only None 1 None))
    by reflexivity.
  assert (Hpos : (1 <= max_id)%Z) by discriminate.
  assert (Harith : forall m, (1 <= m)%Z ->
            Z.min (1 + Z.of_nat (Z.to_nat m - 1)) m = m
            /\ Z.min (1 + Z.of_nat (Z.to_nat m)) m = m) by (intros m Hm; lia).
  destruct (Harith max_id Hpos) as [Hm1 Hm2]. clear Harith.
  assert (Hstop : forall n,
            Z.min (1 + Z.of_nat n) max_id = max_id ->
            counter 0 (after n) = Some max_id
            /\ hands_on toJSON run_getSocket 0
                 (call toJSON run_getSocket 0 (JStr "a") (JArr []) (VFun 11) (VFun 12)
                    (after n))
                 (call_request_of (JStr "a") (JArr []) max_id)
                 (mkHandlers (VFun 11) (VFun 12)) (AjaxCall (VFun 11) (VFun 12))
                 (after n)).
  { intros n Hn. unfold after.
    pose proof (counter_after_calls toJSON run_getSocket Hframe 0
                  (replicate n Cases.a_call) w0 _ Hnew Hpos) as Hk.
    rewrite length_replicate in Hk. cbn [_current_id] in Hk. rewrite Hn in Hk.
    split; [exact Hk|].
    unfold counter in Hk.
    destruct (clients (after_calls toJSON run_getSocket 0 (replicate n Cases.a_call) w0)
                !! 0%nat) as [c|] eqn:Hc; [|discriminate Hk].
    injection Hk as Hk.
    exact (proj1 (call_ids_stop_at_max_id toJSON run_getSocket Hframe 0
                    (JStr "a") (JArr []) (VFun 11) (VFun 12) _ c Hc Hk)). }
  destruct (Hstop _ Hm1) as [H1 Hh1]. destruct (Hstop _ Hm2) as [H2 Hh2].
  exact (conj H1 (conj H2 (conj Hh1 Hh2))).
Qed.

(** The same at hand: a client whose counter stands at 2^53 makes two
    calls inside a batch, and the two stored requests carry the same id. *)
Example calls_at_max_id_share_an_id :
  exists w',
    (call toJSON run_getSocket 0 (JStr "a") (JArr []) (VFun 11) (VFun 12) ;;
     call toJSON run_getSocket 0 (JStr "b") (JArr []) (VFun 21) (VFun 22))
      Cases.at_max_id = Ret tt w'
    /\ clients w' !! 0%nat =
       Some (mkClient http_only None max_id
               (Some [ mkBatchEntry (request_of "a" max_id) (mkHandlers (VFun 11) (VFun 12));
                       mkBatchEntry (request_of "b" max_id) (mkHandlers (VFun 21) (VFun 22)) ])).
Proof. eexists. split; [vm_compute; reflexivity|]. reflexivity. Qed.

Lemma ws_callbacks_shared_witness :
  (_wsCall toJSON 0 0 (request_of "a" 1) (VFun 11) (VFun 12) ;;
   _wsOnMessage parseJSON run_cb 1 "result-1") connecting =
  Ret tt (with_trace [EvInvoke 11 [VJson (JStr "A")]]
            (with_sockets
               [mkSocket "ws://backend/jsonrpc" 0
                  (Some (0%nat, toJSON (request_of "a" 1))) (Some 0%nat)]
               connecting)).
Proof.
  destruct (ws_callbacks_shared toJSON parseJSON run_cb 0 1 0 0
              [ ("jsonrpc", JStr "2.0"); ("method", JStr "a");
                ("params", JArr []); ("id", JNum 1) ]
              [ ("jsonrpc", JStr "2.0"); ("method", JStr "b");
                ("params", JArr []); ("id", JNum 1) ]
              (VFun 11) (VFun 12) (VFun 21) (VFun 22)
              "result-1"
              [("jsonrpc", JStr "2.0"); ("id", JNum 1); ("result", JStr "A")]
              (JStr "A") connecting
              (mkClient (ws_only (VFun 60)) (Some 0%nat) 1 None)
              (mkClient (ws_only (VFun 61)) None 1 None)
              (mkSocket "ws://backend/jsonrpc" 0 None (Some 0%nat))
              (mkSocket "ws://backend/jsonrpc" 0 None (Some 0%nat))
              eq_refl eq_refl eq_refl eq_refl eq_refl eq_refl eq_refl eq_refl
              eq_refl eq_refl eq_refl eq_refl eq_refl)
    as ((w1 & Hcall & _ & Hmessage) & _).
  unfold bind, request_of. rewrite Hcall, Hmessage.
  injection Hcall as <-. reflexivity.
Defined.

Lemma wsCall_connecting_keeps_last_only_witness :
  exists w',
    (_wsCall_all toJSON 0
       [ mkDispatch 0 [ ("jsonrpc", JStr "2.0"); ("method", JStr "a");
                        ("params", JArr []); ("id", JNum 1) ] (VFun 11) (VFun 12);
         mkDispatch 0 [ ("jsonrpc", JStr "2.0"); ("method", JStr "b");
                        ("params", JArr []); ("id", JNum 2) ] (VFun 21) (VFun 22) ] ;;
     socket_open 0) connecting = Ret tt w'
    /\ trace w' = [EvSend 0 (toJSON (request_of "b" 2))]
    /\ _ws_callbacks w' !! "1" = Some (mkHandlers (VFun 11) (VFun 12)).
Proof.
  destruct (wsCall_connecting_keeps_last_only toJSON 0
              [ mkDispatch 0 [ ("jsonrpc", JStr "2.0"); ("method", JStr "a");
                               ("params", JArr []); ("id", JNum 1) ] (VFun 11) (VFun 12) ]
              (mkDispatch 0 [ ("jsonrpc", JStr "2.0"); ("method", JStr "b");
                              ("params", JArr []); ("id", JNum 2) ] (VFun 21) (VFun 22))
              connecting (mkSocket "ws://backend/jsonrpc" 0 None (Some 0%nat))
              eq_refl eq_refl
              ltac:(repeat constructor; eexists; reflexivity))
    as (w' & Hrun & Htrace & Hkept).
  exists w'. split; [exact Hrun|]. split; [exact Htrace|].
  apply (Hkept 0%nat
           (mkDispatch 0 [ ("jsonrpc", JStr "2.0"); ("method", JStr "a");
                           ("params", JArr []); ("id", JNum 1) ] (VFun 11) (VFun 12))
           eq_refl eq_refl).
  intros j e' Hlt Hj _. destruct j as [|[|j]]; [inversion Hlt | | discriminate Hj].
  injection Hj as <-. discriminate.
Defined.

(** ** Further properties *)

Lemma lookup_snoc_length {A} (l : list A) (x : A) : (l ++ [x]) !! length l = Some x.
Proof. rewrite lookup_app_r by lia. now rewrite Nat.sub_diag. Qed.

Lemma insert_snoc_length {A} (l : list A) (x y : A) :
  <[length l := y]> (l ++ [x]) = l ++ [y].
Proof. rewrite insert_app_r_alt by lia. now rewrite Nat.sub_diag. Qed.

Section Further.

Variable toJSON : json -> string.
Variable parseJSON : string -> option json.
Variable run_cb : Cb -> list jsval -> M unit.
Variable run_getSocket : Cb -> nat -> M (option nat).

(** *** The default socket provider *)

Lemma getSocket_unavailable this onmessage_cb w c :
  clients w !! this = Some c ->
  socketUrl (options c) = None \/ window_WebSocket w = false ->
  _getSocket this onmessage_cb w = Ret None w.
Proof.
  intros Hc Hno. unfold _getSocket, bind, get_world, ret.
  rewrite (get_client_Some _ _ _ Hc).
  destruct (socketUrl (options c)); [|reflexivity].
  destruct Hno as [Hno|Hno]; [discriminate|]. now rewrite Hno.
Qed.

Lemma options_getSocket_none this w c :
  clients w !! this = Some c ->
  no_socket c w ->
  options_getSocket run_getSocket this w = Ret None w.
Proof.
  intros Hc [Hdef Hno]. unfold options_getSocket, bind.
  rewrite (get_client_Some _ _ _ Hc), Hdef.
  now apply getSocket_unavailable with (c := c).
Qed.

Lemma getSocket_live this onmessage_cb w c url s sk :
  clients w !! this = Some c ->
  socketUrl (options c) = Some url ->
  window_WebSocket w = true ->
  _ws_socket c = Some s ->
  sockets w !! s = Some sk ->
  (readyState sk <= 1)%Z ->
  _getSocket this onmessage_cb w = Ret (Some s) w.
Proof.
  intros Hc Hurl Hws Hs Hsk Hlive.
  assert (Hr : (1 <? readyState sk)%Z = false) by now apply Z.ltb_ge.
  unfold _getSocket, bind, get_world, ret, get_socket, get_client.
  crunch. reflexivity.
Qed.

Lemma options_getSocket_live this w c url s sk :
  clients w !! this = Some c ->
  getSocket (options c) = DefaultGetSocket ->
  socketUrl (options c) = Some url ->
  window_WebSocket w = true ->
  _ws_socket c = Some s ->
  sockets w !! s = Some sk ->
  (readyState sk <= 1)%Z ->
  options_getSocket run_getSocket this w = Ret (Some s) w.
Proof.
  intros Hc Hdef Hurl Hws Hs Hsk Hlive. unfold options_getSocket, bind.
  rewrite (get_client_Some _ _ _ Hc), Hdef.
  now apply getSocket_live with (c := c) (url := url) (sk := sk).
Qed.

(** X1.  A client whose socket is connecting or open gets that same socket
    back, whatever handler is passed: no socket is created and the
    [onmessage] binding of the socket is left alone. *)
Theorem getSocket_reuses_live_socket this w c url s sk :
  clients w !! this = Some c ->
  socketUrl (options c) = Some url ->
  window_WebSocket w = true ->
  _ws_socket c = Some s ->
  sockets w !! s = Some sk ->
  (readyState sk <= 1)%Z ->
  (forall onmessage_cb, _getSocket this onmessage_cb w = Ret (Some s) w)
  /\ (getSocket (options c) = DefaultGetSocket ->
      options_getSocket run_getSocket this w = Ret (Some s) w).
Proof.
  intros Hc Hurl Hws Hs Hsk Hlive. split.
  - intros cb. now apply getSocket_live with (c := c) (url := url) (sk := sk).
  - intros Hdef. now apply options_getSocket_live with (c := c) (url := url) (sk := sk).
Qed.

Lemma getSocket_fresh this onmessage_cb w c url :
  clients w !! this = Some c ->
  socketUrl (options c) = Some url ->
  window_WebSocket w = true ->
  (_ws_socket c = None
   \/ exists s sk, _ws_socket c = Some s /\ sockets w !! s = Some sk
                   /\ (1 < readyState sk)%Z) ->
  _getSocket this onmessage_cb w =
  Ret (Some (length (sockets w)))
    (with_sockets (sockets w ++ [mkSocket url 0 None (Some onmessage_cb)])
       (with_clients (<[this := set_ws_socket (Some (length (sockets w))) c]> (clients w))
          (with_trace (trace w ++ [EvNewSocket (length (sockets w)) url]) w))).
Proof.
  intros Hc Hurl Hws Hstale.
  unfold _getSocket, new_WebSocket, update_client, update_socket, emit, modify,
    bind, get_world, ret, get_socket, get_client.
  rewrite Hc, Hurl, Hws. cbn -[lookup insert].
  assert (Hfresh : match _ws_socket c with
                   | Some s => match sockets w !! s with
                               | Some sk => Ret (1 <? readyState sk)%Z w
                               | None => Raise (TypeError "not a WebSocket") w
                               end
                   | None => Ret true w
                   end = Ret true w).
  { destruct Hstale as [->|(s & sk & -> & -> & Hr)]; [reflexivity|].
    apply Z.ltb_lt in Hr. now rewrite Hr. }
  destruct (_ws_socket c) as [s|] eqn:Hs.
  - destruct (sockets w !! s) as [sk|] eqn:Hsk; [|discriminate].
    injection Hfresh as ->. cbn -[lookup insert].
    rewrite Hc. cbn -[lookup insert]. rewrite lookup_snoc_length.
    cbn -[lookup insert]. rewrite (lookup_updated _ _ _ _ Hc).
    rewrite insert_snoc_length. reflexivity.
  - cbn -[lookup insert].
    rewrite Hc. cbn -[lookup insert]. rewrite lookup_snoc_length.
    cbn -[lookup insert]. rewrite (lookup_updated _ _ _ _ Hc).
    rewrite insert_snoc_length. reflexivity.
Qed.

(** X2.  A client with no socket yet, or with one that is closing or
    closed, gets a new socket: it is still connecting, it is bound to the
    handler passed, and the client keeps it.  Asking again right away
    returns that socket and creates no other. *)
Theorem getSocket_opens_one_socket this onmessage_cb w c url :
  clients w !! this = Some c ->
  socketUrl (options c) = Some url ->
  window_WebSocket w = true ->
  (_ws_socket c = None
   \/ exists s sk, _ws_socket c = Some s /\ sockets w !! s = Some sk
                   /\ (1 < readyState sk)%Z) ->
  let s' := length (sockets w) in
  let w' :=
    with_sockets (sockets w ++ [mkSocket url 0 None (Some onmessage_cb)])
      (with_clients (<[this := set_ws_socket (Some s') c]> (clients w))
         (with_trace (trace w ++ [EvNewSocket s' url]) w)) in
  _getSocket this onmessage_cb w = Ret (Some s') w'
  /\ (forall onmessage_cb', _getSocket this onmessage_cb' w' = Ret (Some s') w').
Proof.
  intros Hc Hurl Hws Hstale s' w'.
  assert (Hfirst : _getSocket this onmessage_cb w = Ret (Some s') w')
    by now apply getSocket_fresh.
  split; [exact Hfirst|].
  intros cb'. apply getSocket_live with
    (c := set_ws_socket (Some s') c) (url := url)
    (sk := mkSocket url 0 None (Some onmessage_cb)).
  - subst w'. simpl. apply (lookup_updated _ _ _ _ Hc).
  - exact Hurl.
  - exact Hws.
  - reflexivity.
  - subst w' s'. simpl. apply lookup_snoc_length.
  - simpl. lia.
Qed.

(** *** Calls and notifies through a socket *)

(** What [_wsCall] does with a request that has an [id]: the entry is
    written unless [success_cb] is [undefined]. *)
Lemma wsCall_with_id this s fields scb ecb w c sk :
  clients w !! this = Some c ->
  sockets w !! s = Some sk ->
  has_own "id" fields = true ->
  _wsCall toJSON this s (JObj fields) scb ecb w =
  Ret tt
    (with_callbacks
       (if is_undefined scb
        then _ws_callbacks w
        else <[to_key (member "id" fields) := mkHandlers scb ecb]> (_ws_callbacks w))
       (transmit s sk (toJSON (JObj fields)) w)).
Proof.
  intros Hc Hs Hid. destruct (is_undefined scb) eqn:Hu.
  - rewrite (wsCall_silent toJSON this s fields scb ecb w sk Hs)
      by (rewrite Hid, Hu; reflexivity).
    unfold transmit. destruct (readyState sk <? 1)%Z; reflexivity.
  - exact (wsCall_registers toJSON this s fields scb ecb w c sk Hc Hs Hid Hu).
Qed.

(** X3.  In a window that has WebSockets, the first call of a client that
    is configured with a [socketUrl] creates the socket, sends nothing yet,
    leaves the request with the [onopen] handler of the socket and
    increments the counter; the two continuations are registered under the
    id of the call unless [success_cb] is [undefined]. *)
Theorem first_call_opens_socket_and_waits this method params scb ecb w c url :
  clients w !! this = Some c ->
  getSocket (options c) = DefaultGetSocket ->
  socketUrl (options c) = Some url ->
  window_WebSocket w = true ->
  _ws_socket c = None ->
  let s := length (sockets w) in
  let request := call_request_of method params (_current_id c) in
  call toJSON run_getSocket this method params scb ecb w =
  Ret tt
    (mkWorld (window_console w) (window_WebSocket w)
       (if is_undefined scb
        then _ws_callbacks w
        else <[Z_to_string (_current_id c) := mkHandlers scb ecb]> (_ws_callbacks w))
       (<[this := mkClient (options c) (Some s) (js_incr (_current_id c)) (_batch c)]>
          (clients w))
       (sockets w ++ [mkSocket url 0 (Some (s, toJSON request)) (Some this)])
       (trace w ++ [EvNewSocket s url])).
Proof.
  intros Hc Hdef Hurl Hws Hs s request.
  unfold call, bind. rewrite (call_request_Some _ _ _ _ _ Hc).
  set (c1 := set_current_id (js_incr (_current_id c)) c).
  set (w1 := with_clients _ w).
  assert (Hc1 : clients w1 !! this = Some c1)
    by (subst w1; simpl; apply (lookup_updated _ _ _ _ Hc)).
  unfold call_dispatch, options_getSocket, bind.
  rewrite (get_client_Some _ _ _ Hc1). change (getSocket (options c1)) with (getSocket (options c)).
  rewrite Hdef.
  rewrite (getSocket_fresh this this w1 c1 url Hc1 Hurl Hws (or_introl Hs)).
  set (w2 := with_sockets _ _).
  assert (Hc2 : clients w2 !! this = Some (set_ws_socket (Some s) c1)).
  { subst w2. simpl. apply (lookup_updated _ _ _ _ Hc1). }
  assert (Hs2 : sockets w2 !! length (sockets w1) = Some (mkSocket url 0 None (Some this))).
  { subst w2. simpl. apply lookup_snoc_length. }
  erewrite wsCall_with_id; [| exact Hc2 | exact Hs2 | reflexivity].
  unfold transmit. subst w2 w1. cbn -[lookup insert to_key is_undefined].
  rewrite insert_snoc_length, list_insert_insert_eq. reflexivity.
Qed.

(** X4.  With a live socket at hand a call goes out through the socket even
    while a batch is open: the batch is left as it is and nothing is
    posted.  The counter is incremented, and the continuations are
    registered under the id of the call unless [success_cb] is
    [undefined]. *)
Theorem call_over_socket_bypasses_batch this method params scb ecb w c url s sk :
  clients w !! this = Some c ->
  getSocket (options c) = DefaultGetSocket ->
  socketUrl (options c) = Some url ->
  window_WebSocket w = true ->
  _ws_socket c = Some s ->
  sockets w !! s = Some sk ->
  (readyState sk <= 1)%Z ->
  let request := call_request_of method params (_current_id c) in
  let c' := mkClient (options c) (Some s) (js_incr (_current_id c)) (_batch c) in
  call toJSON run_getSocket this method params scb ecb w =
  Ret tt
    (with_callbacks
       (if is_undefined scb
        then _ws_callbacks w
        else <[Z_to_string (_current_id c) := mkHandlers scb ecb]> (_ws_callbacks w))
       (transmit s sk (toJSON request)
          (with_clients (<[this := c']> (clients w)) w))).
Proof.
  intros Hc Hdef Hurl Hws Hs Hsk Hlive request c'.
  unfold call, bind. rewrite (call_request_Some _ _ _ _ _ Hc).
  set (w1 := with_clients _ w).
  assert (Hc1 : clients w1 !! this = Some c').
  { subst w1 c'. simpl. rewrite (lookup_updated _ _ _ _ Hc).
    unfold set_current_id. now rewrite Hs. }
  assert (Hw1 : w1 = with_clients (<[this := c']> (clients w)) w).
  { subst w1 c'. unfold set_current_id. now rewrite Hs. }
  unfold call_dispatch, bind.
  rewrite (options_getSocket_live this w1 c' url s sk Hc1 Hdef Hurl Hws eq_refl Hsk Hlive).
  erewrite wsCall_with_id; [| exact Hc1 | exact Hsk | reflexivity].
  now rewrite Hw1.
Qed.

(** X5.  A notify that goes out through a socket registers nothing and
    touches no client: the registry, the id counters and the batches are
    as before, and the request has been handed to the socket. *)
Theorem notify_over_socket_registers_nothing this method params w c url s sk :
  clients w !! this = Some c ->
  getSocket (options c) = DefaultGetSocket ->
  socketUrl (options c) = Some url ->
  window_WebSocket w = true ->
  _ws_socket c = Some s ->
  sockets w !! s = Some sk ->
  (readyState sk <= 1)%Z ->
  let w' := transmit s sk (toJSON (notify_request method params)) w in
  notify toJSON run_getSocket this method params w = Ret tt w'
  /\ _ws_callbacks w' = _ws_callbacks w
  /\ clients w' = clients w.
Proof.
  intros Hc Hdef Hurl Hws Hs Hsk Hlive w'. split; [|split].
  - unfold notify, bind.
    rewrite (options_getSocket_live this w c url s sk Hc Hdef Hurl Hws Hs Hsk Hlive).
    unfold notify_request. now erewrite wsCall_silent; [| exact Hsk | reflexivity].
  - subst w'. unfold transmit. now destruct (readyState sk <? 1)%Z.
  - subst w'. apply clients_transmit.
Qed.

(** *** Batches *)

Lemma no_socket_with_clients c cs w :
  no_socket c w -> no_socket c (with_clients cs w).
Proof. intros H. exact H. Qed.

Lemma call_batched this method params scb ecb w c batch :
  clients w !! this = Some c ->
  no_socket c w ->
  _batch c = Some batch ->
  call toJSON run_getSocket this method params scb ecb w =
  Ret tt
    (with_clients
       (<[this := mkClient (options c) (_ws_socket c) (js_incr (_current_id c))
                    (Some (batch ++ [mkBatchEntry
                                       (call_request_of method params (_current_id c))
                                       (mkHandlers scb ecb)]))]>
          (clients w)) w).
Proof.
  intros Hc Hno Hb. unfold call, bind. rewrite (call_request_Some _ _ _ _ _ Hc).
  set (c1 := set_current_id (js_incr (_current_id c)) c).
  set (w1 := with_clients _ w).
  assert (Hc1 : clients w1 !! this = Some c1)
    by (subst w1; simpl; apply (lookup_updated _ _ _ _ Hc)).
  unfold call_dispatch, bind.
  rewrite (options_getSocket_none this w1 c1 Hc1 Hno).
  rewrite (get_client_Some _ _ _ Hc1). change (_batch c1) with (_batch c). rewrite Hb.
  rewrite (update_client_Some _ _ _ _ Hc1). subst w1. simpl.
  now rewrite list_insert_insert_eq.
Qed.

Lemma notify_batched this method params w c batch :
  clients w !! this = Some c ->
  no_socket c w ->
  _batch c = Some batch ->
  notify toJSON run_getSocket this method params w =
  Ret tt
    (with_clients
       (<[this := mkClient (options c) (_ws_socket c) (_current_id c)
                    (Some (batch ++ [mkBatchEntry (notify_request method params)
                                       (mkHandlers VUndef VUndef)]))]>
          (clients w)) w).
Proof.
  intros Hc Hno Hb. unfold notify, bind.
  rewrite (options_getSocket_none this w c Hc Hno).
  rewrite (get_client_Some _ _ _ Hc), Hb.
  now rewrite (update_client_Some _ _ _ _ Hc).
Qed.

Lemma run_ops_batched this ops : forall w c batch,
  clients w !! this = Some c ->
  no_socket c w ->
  _batch c = Some batch ->
  (_current_id c + Z.of_nat (length ops) <= max_id)%Z ->
  run_ops toJSON run_getSocket this ops w =
  Ret tt
    (with_clients
       (<[this := mkClient (options c) (_ws_socket c)
                    (counter_after (_current_id c) ops)
                    (Some (batch ++ entries_from (_current_id c) ops))]>
          (clients w)) w).
Proof.
  induction ops as [|op ops IH]; intros w c batch Hc Hno Hb Hmax.
  - simpl. rewrite app_nil_r, <- Hb. unfold ret. f_equal.
    replace (mkClient (options c) (_ws_socket c) (_current_id c) (_batch c)) with c
      by now destruct c.
    rewrite list_insert_id by exact Hc. now destruct w.
  - cbn [run_ops]. unfold bind.
    destruct op as [a|method params]; cbn [run_op entries_from counter_after].
    + rewrite (call_batched _ _ _ _ _ _ _ _ Hc Hno Hb).
      cbn [length] in Hmax. rewrite js_incr_below by lia.
      set (c1 := mkClient _ _ _ _). set (w1 := with_clients _ w).
      assert (Hc1 : clients w1 !! this = Some c1)
        by (subst w1; simpl; apply (lookup_updated _ _ _ _ Hc)).
      rewrite (IH w1 c1 _ Hc1 Hno eq_refl) by (subst c1; cbn [_current_id]; lia).
      subst w1 c1. simpl.
      now rewrite list_insert_insert_eq, <- app_assoc.
    + rewrite (notify_batched _ _ _ _ _ _ Hc Hno Hb).
      cbn [length] in Hmax.
      set (c1 := mkClient _ _ _ _). set (w1 := with_clients _ w).
      assert (Hc1 : clients w1 !! this = Some c1)
        by (subst w1; simpl; apply (lookup_updated _ _ _ _ Hc)).
      rewrite (IH w1 c1 _ Hc1 Hno eq_refl) by (subst c1; cbn [_current_id]; lia).
      subst w1 c1. simpl.
      now rewrite list_insert_insert_eq, <- app_assoc.
Qed.

(** X6.  While a batch is open on a client that has no socket, a run of
    calls and notifies that keeps the counter within 2^53 only grows the
    batch, in the order of the run, and moves the counter by the number of
    calls: nothing is posted or sent, and the registry is not touched. *)
Theorem batch_collects_in_order this ops w c batch :
  clients w !! this = Some c ->
  no_socket c w ->
  _batch c = Some batch ->
  (_current_id c + Z.of_nat (length ops) <= max_id)%Z ->
  exists w',
    run_ops toJSON run_getSocket this ops w = Ret tt w'
    /\ clients w' !! this =
       Some (mkClient (options c) (_ws_socket c) (counter_after (_current_id c) ops)
               (Some (batch ++ entries_from (_current_id c) ops)))
    /\ trace w' = trace w
    /\ _ws_callbacks w' = _ws_callbacks w
    /\ sockets w' = sockets w.
Proof.
  intros Hc Hno Hb Hmax. eexists.
  split; [exact (run_ops_batched this ops w c batch Hc Hno Hb Hmax)|].
  simpl. split; [apply (lookup_updated _ _ _ _ Hc)|]. now repeat split.
Qed.

Lemma endBatch_collect_objects batch : forall acc handlers w,
  Forall (fun e => is_object (request e) = true) batch ->
  endBatch_collect batch acc handlers w =
  Ret (acc ++ map request batch, foldl handlers_step handlers batch) w.
Proof.
  induction batch as [|e batch IH]; intros acc handlers w Hall.
  - simpl. now rewrite app_nil_r.
  - inversion Hall as [|? ? He Hrest]; subst.
    cbn [endBatch_collect map foldl]. unfold handlers_step at 2.
    destruct (request e) as [| | | | |fields] eqn:Hreq; try discriminate He.
    unfold bind, has_prop, get_prop, ret.
    destruct (has_own "id" fields); rewrite IH by exact Hrest;
      now rewrite <- app_assoc.
Qed.

Lemma endBatch_flush this all_done_cb error_cb w c batch :
  clients w !! this = Some c ->
  _batch c = Some batch ->
  batch <> [] ->
  Forall (fun e => is_object (request e) = true) batch ->
  endBatch toJSON this all_done_cb error_cb w =
  Ret tt
    (with_trace
       (trace w ++ [EvAjax (ajaxUrl (options c)) (toJSON (JArr (map request batch)))
                      (AjaxBatch (batch_handlers batch) all_done_cb error_cb)])
       (with_clients (<[this := set_batch None c]> (clients w)) w)).
Proof.
  intros Hc Hb Hne Hall. unfold endBatch, bind.
  rewrite (get_client_Some _ _ _ Hc), Hb, (update_client_Some _ _ _ _ Hc).
  destruct batch as [|e batch]; [easy|].
  rewrite (endBatch_collect_objects _ _ _ _ Hall). reflexivity.
Qed.

(** X7.  [endBatch] on a batch that holds something resets [_batch] to
    [null] and posts once: the body is the array of the stored requests in
    the order they were stored, the url is [ajaxUrl] as it is (even
    [null]: nothing is thrown), and the success handler gets the handler
    map of the batch. *)
Theorem endBatch_posts_once this all_done_cb error_cb w c batch :
  clients w !! this = Some c ->
  _batch c = Some batch ->
  batch <> [] ->
  Forall (fun e => is_object (request e) = true) batch ->
  exists w',
    endBatch toJSON this all_done_cb error_cb w = Ret tt w'
    /\ trace w' =
       trace w ++ [EvAjax (ajaxUrl (options c)) (toJSON (JArr (map request batch)))
                     (AjaxBatch (batch_handlers batch) all_done_cb error_cb)]
    /\ clients w' !! this = Some (set_batch None c)
    /\ _ws_callbacks w' = _ws_callbacks w.
Proof.
  intros Hc Hb Hne Hall. eexists.
  split; [exact (endBatch_flush this all_done_cb error_cb w c batch Hc Hb Hne Hall)|].
  simpl.
  split; [reflexivity|]. split; [apply (lookup_updated _ _ _ _ Hc) | reflexivity].
Qed.

(** X8.  Flushing when no batch is open changes nothing; flushing an empty
    batch only closes it; either way nothing is posted.  [startBatch]
    followed at once by [endBatch] on an idle client gives the store back
    as it was. *)
Theorem endBatch_without_entries this all_done_cb error_cb w c :
  clients w !! this = Some c ->
  (_batch c = None -> endBatch toJSON this all_done_cb error_cb w = Ret tt w)
  /\ (_batch c = Some [] ->
      endBatch toJSON this all_done_cb error_cb w =
      Ret tt (with_clients (<[this := set_batch None c]> (clients w)) w))
  /\ (_batch c = None ->
      (startBatch this ;; endBatch toJSON this all_done_cb error_cb) w = Ret tt w).
Proof.
  intros Hc. split; [|split].
  - intros Hb. unfold endBatch, bind. now rewrite (get_client_Some _ _ _ Hc), Hb.
  - intros Hb. unfold endBatch, bind.
    now rewrite (get_client_Some _ _ _ Hc), Hb, (update_client_Some _ _ _ _ Hc).
  - intros Hb. unfold bind at 1. unfold startBatch, bind.
    rewrite (get_client_Some _ _ _ Hc), Hb, (update_client_Some _ _ _ _ Hc).
    set (w1 := with_clients _ w).
    assert (Hc1 : clients w1 !! this = Some (set_batch (Some []) c))
      by (subst w1; simpl; apply (lookup_updated _ _ _ _ Hc)).
    unfold endBatch, bind.
    rewrite (get_client_Some _ _ _ Hc1). cbn [_batch set_batch].
    rewrite (update_client_Some _ _ _ _ Hc1). subst w1. simpl.
    rewrite list_insert_insert_eq. unfold ret. f_equal.
    replace (set_batch None (set_batch (Some []) c)) with c
      by (destruct c; simpl in Hb; now subst).
    rewrite list_insert_id by exact Hc. now destruct w.
Qed.

Lemma entries_from_objects ops : forall n,
  Forall (fun e => is_object (request e) = true) (entries_from n ops).
Proof.
  induction ops as [|[a|method params] ops IH]; intros n; simpl;
    constructor; auto.
Qed.

(** X9.  A whole batch on an idle client without sockets: [startBatch], a
    run of calls and notifies that keeps the counter within 2^53,
    [endBatch].  The run posts nothing; the flush posts once, with the
    requests of the run in order, the calls numbered from the counter on,
    and leaves the client idle again. *)
Theorem batch_cycle_posts_once this ops all_done_cb error_cb w c :
  clients w !! this = Some c ->
  no_socket c w ->
  _batch c = None ->
  ops <> [] ->
  (_current_id c + Z.of_nat (length ops) <= max_id)%Z ->
  let batch := entries_from (_current_id c) ops in
  (startBatch this ;;
   run_ops toJSON run_getSocket this ops ;;
   endBatch toJSON this all_done_cb error_cb) w =
  Ret tt
    (with_trace
       (trace w ++ [EvAjax (ajaxUrl (options c)) (toJSON (JArr (map request batch)))
                      (AjaxBatch (batch_handlers batch) all_done_cb error_cb)])
       (with_clients
          (<[this := mkClient (options c) (_ws_socket c)
                       (counter_after (_current_id c) ops) None]> (clients w)) w)).
Proof.
  intros Hc Hno Hb Hops Hmax batch.
  unfold bind at 1. unfold startBatch, bind at 1.
  rewrite (get_client_Some _ _ _ Hc), Hb, (update_client_Some _ _ _ _ Hc).
  set (c1 := set_batch (Some []) c). set (w1 := with_clients _ w).
  assert (Hc1 : clients w1 !! this = Some c1)
    by (subst w1; simpl; apply (lookup_updated _ _ _ _ Hc)).
  unfold bind.
  rewrite (run_ops_batched this ops w1 c1 [] Hc1 Hno eq_refl Hmax).
  set (c2 := mkClient _ _ _ _). set (w2 := with_clients _ w1).
  assert (Hc2 : clients w2 !! this = Some c2)
    by (subst w2; simpl; apply (lookup_updated _ _ _ _ Hc1)).
  assert (Hne : batch <> []).
  { subst batch. destruct ops as [|[a|m p] ops]; [easy| |]; discriminate. }
  rewrite (endBatch_flush this all_done_cb error_cb w2 c2 batch Hc2 eq_refl Hne
             (entries_from_objects ops _)).
  subst w2 w1 c2 c1. simpl. now rewrite !list_insert_insert_eq.
Qed.

Lemma batch_handlers_keeps batch : forall (handlers : gmap string Handlers) k h,
  handlers !! k = Some h ->
  (forall e, e ∈ batch -> entry_key e <> Some k) ->
  foldl handlers_step handlers batch !! k = Some h.
Proof.
  induction batch as [|e batch IH]; intros handlers k h Hk Hfresh; [exact Hk|].
  simpl. apply IH.
  - pose proof (Hfresh e (list_elem_of_here _ _)) as He.
    unfold handlers_step, entry_key in *.
    destruct (request e) as [| | | | |fields]; try exact Hk.
    destruct (has_own "id" fields); [|exact Hk].
    rewrite lookup_insert_ne; [exact Hk|]. congruence.
  - intros e' Hin. apply Hfresh. now apply list_elem_of_further.
Qed.

Lemma batch_handlers_absent batch : forall (handlers : gmap string Handlers) k,
  handlers !! k = None ->
  (forall e, e ∈ batch -> entry_key e <> Some k) ->
  foldl handlers_step handlers batch !! k = None.
Proof.
  induction batch as [|e batch IH]; intros handlers k Hk Hfresh; [exact Hk|].
  simpl. apply IH.
  - pose proof (Hfresh e (list_elem_of_here _ _)) as He.
    unfold handlers_step, entry_key in *.
    destruct (request e) as [| | | | |fields]; try exact Hk.
    destruct (has_own "id" fields); [|exact Hk].
    rewrite lookup_insert_ne; [exact Hk|]. congruence.
  - intros e' Hin. apply Hfresh. now apply list_elem_of_further.
Qed.

Lemma batch_handlers_lookup batch k : forall (handlers : gmap string Handlers) (i : nat) e,
  batch !! i = Some e -> entry_key e = Some k ->
  (forall (j : nat) e', (i < j)%nat -> batch !! j = Some e' -> entry_key e' <> Some k) ->
  foldl handlers_step handlers batch !! k = Some (handlers_of e).
Proof.
  induction batch as [|e0 batch IH]; intros handlers i e Hi Hkey Hlater; [easy|].
  destruct i as [|i]; simpl in Hi.
  - injection Hi as ->. simpl. apply batch_handlers_keeps.
    + unfold handlers_step, entry_key in *.
      destruct (request e) as [| | | | |fields]; try discriminate Hkey.
      destruct (has_own "id" fields); [|discriminate Hkey].
      injection Hkey as <-. apply lookup_insert_eq.
    + intros e' Hin. apply list_elem_of_lookup in Hin as [j Hj].
      apply (Hlater (S j) e'); [lia | exact Hj].
  - simpl. apply (IH _ i e Hi Hkey).
    intros j e' Hlt Hj. apply (Hlater (S j) e'); [lia | exact Hj].
Qed.

(** X10.  [endBatch] on a batch that holds something gives to [$.ajax] a
    success handler whose handler map holds, under the id of a stored
    call, the continuations of the last entry stored with that id, and
    holds nothing under a key that is the id of no entry, so the notifies
    of the batch have no handlers. *)
Theorem endBatch_handler_map this all_done_cb error_cb w c batch :
  clients w !! this = Some c ->
  _batch c = Some batch ->
  batch <> [] ->
  Forall (fun e => is_object (request e) = true) batch ->
  exists handlers,
    endBatch toJSON this all_done_cb error_cb w =
    Ret tt
      (with_trace
         (trace w ++ [EvAjax (ajaxUrl (options c)) (toJSON (JArr (map request batch)))
                        (AjaxBatch handlers all_done_cb error_cb)])
         (with_clients (<[this := set_batch None c]> (clients w)) w))
    /\ (forall k (i : nat) e,
          batch !! i = Some e -> entry_key e = Some k ->
          (forall (j : nat) e', (i < j)%nat -> batch !! j = Some e' ->
                                entry_key e' <> Some k) ->
          handlers !! k = Some (handlers_of e))
    /\ (forall k,
          (forall e, e ∈ batch -> entry_key e <> Some k) ->
          handlers !! k = None).
Proof.
  intros Hc Hb Hne Hall. exists (batch_handlers batch).
  split; [exact (endBatch_flush this all_done_cb error_cb w c batch Hc Hb Hne Hall)|].
  split.
  - intros k i e Hi Hkey Hlater.
    exact (batch_handlers_lookup batch k ∅ i e Hi Hkey Hlater).
  - intros k Hfresh. now apply batch_handlers_absent.
Qed.

(** *** The handlers that [call] gives to [$.ajax] *)

(** X11.  A body without an [error] member is a success: the success
    continuation alone is called, with the [result] of the body, which is
    [undefined] when the body has none. *)
Theorem call_success_without_error scb ecb fields w :
  assoc "error" fields = None ->
  call_success run_cb scb ecb (JObj fields) w =
  invoke run_cb scb [member "result" fields] w.
Proof.
  intros He. unfold call_success, has_prop, get_prop, bind, ret.
  now rewrite (has_own_None _ _ He).
Qed.

(** X12.  When the exchange fails and the body is not JSON, the error
    continuation is called once, with the raw body wrapped as
    [{ error: responseText }]; nothing is logged. *)
Theorem call_error_malformed_body ecb responseText w :
  parseJSON responseText = None ->
  call_error parseJSON run_cb ecb responseText w =
  invoke run_cb ecb [VJson (JObj [("error", JStr responseText)])] w.
Proof.
  intros Hp. unfold call_error, try_catch, parse, bind. now rewrite Hp.
Qed.

(** X13.  When the exchange fails and the body is a JSON object, the body
    is logged if there is a console and the error continuation is called
    with the [error] member of the body.  If that call throws, the
    exception is swallowed and the continuation is called a second time,
    with the wrapped raw body. *)
Theorem call_error_json_body f responseText fields w :
  parseJSON responseText = Some (JObj fields) ->
  let w1 := if window_console w
            then with_trace (trace w ++ [EvLog (JObj fields)]) w else w in
  call_error parseJSON run_cb (VFun f) responseText w =
  match invoke run_cb (VFun f) [member "error" fields] w1 with
  | Ret _ w2 => Ret tt w2
  | Raise _ w2 =>
      invoke run_cb (VFun f) [VJson (JObj [("error", JStr responseText)])] w2
  end.
Proof.
  intros Hp w1. unfold call_error, try_catch, parse, bind at 1 2 3 4.
  rewrite Hp. unfold ret at 1, has_console, bind at 1, get_world, ret at 1.
  subst w1. destruct (window_console w);
    unfold console_log, emit, modify, get_prop, bind, ret; simpl;
    match goal with
    | |- match ?m with _ => _ end = _ => destruct m as [[] ?|? ?]
    end; reflexivity.
Qed.

(** *** Messages that resolve nothing *)

(** X14.  A message that is not JSON, or is JSON but not an object whose
    [jsonrpc] member is the string 2.0, goes to the fallback handler and
    to nothing else; the registry is not consulted.  This covers [null],
    whose inspection throws inside the [try]. *)
Theorem wsOnMessage_not_a_response this event w :
  match parseJSON event with
  | Some v => is_response v = false
  | None => True
  end ->
  _wsOnMessage parseJSON run_cb this event w = fallback run_cb this event w.
Proof.
  intros Hno. unfold _wsOnMessage, _wsOnMessage_try, try_catch, parse, bind at 1 2.
  destruct (parseJSON event) as [v|]; [|reflexivity].
  unfold ret at 1, and_then, bind, ret, has_prop, get_prop.
  destruct v as [|b|n|s|items|fields]; try reflexivity.
  simpl in Hno. unfold has_own, member in *. cbn [typeof_object].
  destruct (assoc "jsonrpc" fields) as [x|]; [|reflexivity].
  unfold ret. cbn beta iota. now rewrite Hno.
Qed.

(** X15.  A 2.0 response that has neither [result] nor [error] resolves
    nothing even when its id is registered: the entry stays where it is
    and the message goes to the fallback handler. *)
Theorem wsOnMessage_without_result_or_error this event fields w :
  parseJSON event = Some (JObj fields) ->
  assoc "jsonrpc" fields = Some (JStr "2.0") ->
  assoc "result" fields = None ->
  assoc "error" fields = None ->
  _wsOnMessage parseJSON run_cb this event w = fallback run_cb this event w.
Proof.
  intros Hp Hv Hr He. unfold _wsOnMessage, bind at 1, try_catch.
  rewrite (wsOnMessage_try_response parseJSON run_cb this event fields w Hp Hv).
  cbv zeta. unfold and_then, has_prop, bind, ret.
  now rewrite (has_own_None _ _ Hr), (has_own_None _ _ He).
Qed.

(** X16.  Register and resolve: a call registered through a socket under
    an id that was free, followed by the response with that id, runs the
    success continuation with the result in a store whose registry is
    again the one before the call. *)
Theorem register_then_resolve a b s request scb ecb event fields result w ca cb sk :
  clients w !! a = Some ca ->
  clients w !! b = Some cb ->
  sockets w !! s = Some sk ->
  has_own "id" request = true ->
  is_undefined scb = false ->
  _ws_callbacks w !! to_key (member "id" request) = None ->
  parseJSON event = Some (JObj fields) ->
  assoc "jsonrpc" fields = Some (JStr "2.0") ->
  assoc "result" fields = Some result ->
  to_key (member "id" fields) = to_key (member "id" request) ->
  (_wsCall toJSON a s (JObj request) scb ecb ;;
   _wsOnMessage parseJSON run_cb b event) w =
  after_continuation run_cb b event (invoke run_cb scb [VJson result])
    (transmit s sk (toJSON (JObj request)) w).
Proof.
  intros Ha Hb Hs Hid Hu Hfree Hp Hv Hr Hkey.
  unfold bind. rewrite (wsCall_registers _ _ _ _ _ _ _ _ _ Ha Hs Hid Hu).
  set (w1 := with_callbacks _ _).
  assert (Hb1 : clients w1 !! b = Some cb)
    by (subst w1; simpl; now rewrite clients_transmit).
  assert (Hreg : _ws_callbacks w1 !! to_key (member "id" fields)
                 = Some (mkHandlers scb ecb))
    by (rewrite Hkey; apply lookup_insert_eq).
  rewrite (wsOnMessage_result _ _ _ _ _ _ _ _ _ Hp Hv Hb1 Hreg Hr).
  f_equal. subst w1. rewrite Hkey. simpl.
  rewrite (delete_insert_id _ _ _ Hfree).
  unfold transmit. destruct (readyState sk <? 1)%Z; now destruct w.
Qed.

(** *** The batch callback *)

(** X17.  In a window without a console the batch callback does deliver
    results: an element with no [error] whose id has a handler has that
    handler's success continuation called with its [result]. *)
Theorem batchCb_delivers_without_console fields (handlers : gmap string Handlers) h w :
  assoc "error" fields = None ->
  handlers !! to_key (member "id" fields) = Some h ->
  window_console w = false ->
  _batchCb_response run_cb (JObj fields) handlers w =
  invoke run_cb (success_cb h) [member "result" fields] w.
Proof.
  intros He Hk Hw. pose proof (has_own_None _ _ He) as Hno.
  pose proof (lookup_slot_Own _ _ _ Hk) as Hs.
  unfold _batchCb_response, key_in, has_console, has_prop, get_prop, get_world, bind, ret.
  crunch. rewrite ?andb_false_r.
  now destruct (invoke run_cb (success_cb h) [member "result" fields] w) as [[] ?|? ?].
Qed.

(** X18.  No error continuation of a batch is ever called.  An element
    with an [error] member is logged (or passed over without a console)
    when its id is [null] or in the map, and otherwise the callback throws
    before it calls anything. *)
Theorem batchCb_error_never_delivered fields (handlers : gmap string Handlers) error w :
  assoc "error" fields = Some error ->
  _batchCb_response run_cb (JObj fields) handlers w =
  if is_null (member "id" fields) || key_in (to_key (member "id" fields)) handlers
  then (if window_console w
        then Ret tt (with_trace (trace w ++ [EvLog (JObj fields)]) w)
        else Ret tt w)
  else Raise (TypeError "cannot read a property of undefined") w.
Proof.
  intros He. pose proof (has_own_Some _ _ _ He) as Hhas.
  unfold _batchCb_response, has_console, has_prop, get_prop, get_world, bind, ret.
  rewrite Hhas.
  destruct (is_null (member "id" fields)); simpl.
  - now destruct (window_console w).
  - destruct (key_in (to_key (member "id" fields)) handlers) eqn:Hin.
    + now destruct (window_console w).
    + unfold key_in in Hin.
      destruct (lookup_slot (to_key (member "id" fields)) handlers); try discriminate.
      reflexivity.
Qed.

Lemma batchCb_loop_answered result : forall (handlers : gmap string Handlers) w,
  window_console w = true ->
  Forall (answered handlers) result ->
  _batchCb_loop run_cb result handlers w =
  Ret tt (with_trace (trace w ++ map EvLog result) w).
Proof.
  induction result as [|v result IH]; intros handlers w Hw Hall.
  - simpl. unfold ret. rewrite app_nil_r. now destruct w.
  - inversion Hall as [|? ? (fields & h & -> & Hk) Hrest]; subst.
    cbn [_batchCb_loop map]. unfold bind.
    assert (Hstep : _batchCb_response run_cb (JObj fields) handlers w =
                    Ret tt (with_trace (trace w ++ [EvLog (JObj fields)]) w)).
    { destruct (assoc "error" fields) as [error|] eqn:He.
      - rewrite (batchCb_error_logged _ _ _ _ _ _ He Hk). now rewrite Hw.
      - now rewrite (batchCb_result_logged _ _ _ _ _ He Hk Hw). }
    rewrite Hstep, IH by assumption. simpl. now rewrite <- app_assoc.
Qed.

(** X19.  In a window with a console, an answer whose elements all carry
    ids of the batch is logged element by element, in order, no
    continuation of a call is reached, and the completion callback, when
    it is a function, is called last with the whole answer. *)
Theorem batchCb_answered_logs_and_completes result (handlers : gmap string Handlers)
    all_done_cb w :
  window_console w = true ->
  Forall (answered handlers) result ->
  _batchCb run_cb (JArr result) handlers all_done_cb w =
  (if is_function all_done_cb
   then invoke run_cb all_done_cb [VJson (JArr result)]
   else ret tt) (with_trace (trace w ++ map EvLog result) w).
Proof.
  intros Hw Hall. unfold _batchCb, bind. cbn [for_in].
  now rewrite (batchCb_loop_answered result handlers w Hw Hall).
Qed.

(** *** Dispatch through an open socket *)



(** *** Calls over HTTP *)

(** X21.  A call that throws for want of an endpoint has still used up an
    id: below 2^53 the counter has moved by one, so the next call of the
    client skips that id. *)
Theorem call_without_endpoint_consumes_id this method params scb ecb w c :
  clients w !! this = Some c ->
  no_socket c w ->
  _batch c = None ->
  ajaxUrl (options c) = None ->
  (_current_id c < max_id)%Z ->
  call toJSON run_getSocket this method params scb ecb w =
  Raise (Thrown (VJson (JStr
    "$.JsonRpcClient.call used with no websocket and no http endpoint.")))
    (with_clients (<[this := set_current_id (_current_id c + 1) c]> (clients w)) w).
Proof.
  intros Hc Hno Hb Hurl Hmax. rewrite <- (js_incr_below _ Hmax).
  unfold call, bind. rewrite (call_request_Some _ _ _ _ _ Hc).
  set (c1 := set_current_id (js_incr (_current_id c)) c). set (w1 := with_clients _ w).
  assert (Hc1 : clients w1 !! this = Some c1)
    by (subst w1; simpl; apply (lookup_updated _ _ _ _ Hc)).
  unfold call_dispatch, bind.
  rewrite (options_getSocket_none this w1 c1 Hc1 Hno), (get_client_Some _ _ _ Hc1).
  change (_batch c1) with (_batch c). change (options c1) with (options c).
  now rewrite Hb, Hurl.
Qed.

(** X22.  Outside a batch, on a client without sockets, a call posts once
    to [ajaxUrl] the request with the id it has taken and, below 2^53,
    moves the counter by one; a notify posts once a request without id and
    without handlers and changes no client.  Neither touches the
    registry. *)
Theorem call_and_notify_post_once this method params scb ecb w c url :
  clients w !! this = Some c ->
  no_socket c w ->
  _batch c = None ->
  ajaxUrl (options c) = Some url ->
  ((_current_id c < max_id)%Z ->
   call toJSON run_getSocket this method params scb ecb w =
   Ret tt
     (with_trace
        (trace w ++ [EvAjax (Some url)
                       (toJSON (call_request_of method params (_current_id c)))
                       (AjaxCall scb ecb)])
        (with_clients (<[this := set_current_id (_current_id c + 1) c]> (clients w)) w)))
  /\ notify toJSON run_getSocket this method params w =
     Ret tt
       (with_trace
          (trace w ++ [EvAjax (Some url) (toJSON (notify_request method params))
                         AjaxNotify]) w).
Proof.
  intros Hc Hno Hb Hurl. split.
  - intros Hmax. rewrite <- (js_incr_below _ Hmax).
    unfold call, bind. rewrite (call_request_Some _ _ _ _ _ Hc).
    set (c1 := set_current_id (js_incr (_current_id c)) c). set (w1 := with_clients _ w).
    assert (Hc1 : clients w1 !! this = Some c1)
      by (subst w1; simpl; apply (lookup_updated _ _ _ _ Hc)).
    unfold call_dispatch, bind.
    rewrite (options_getSocket_none this w1 c1 Hc1 Hno), (get_client_Some _ _ _ Hc1).
    change (_batch c1) with (_batch c). change (options c1) with (options c).
    now rewrite Hb, Hurl.
  - unfold notify, bind.
    rewrite (options_getSocket_none this w c Hc Hno), (get_client_Some _ _ _ Hc).
    now rewrite Hb, Hurl.
Qed.

(** *** The id counter and the registry keys *)

(** X23.  Nothing but [call] moves an id counter: [startBatch],
    [endBatch], [_getSocket] and [_wsCall] leave the counter of every
    client where it was, whether they return or throw. *)
Theorem only_call_moves_the_counter this k w :
  counter k (world_of (startBatch this w)) = counter k w
  /\ (forall all_done_cb error_cb,
        counter k (world_of (endBatch toJSON this all_done_cb error_cb w)) = counter k w)
  /\ (forall onmessage_cb,
        counter k (world_of (_getSocket this onmessage_cb w)) = counter k w)
  /\ (forall s request scb ecb,
        counter k (world_of (_wsCall toJSON this s request scb ecb w)) = counter k w).
Proof.
  split; [|split; [|split]].
  - apply keeps_bind; [apply keeps_get_client|]. intros c.
    destruct (_batch c); [apply keeps_ret | now apply keeps_update_client].
  - intros all_done_cb error_cb.
    apply keeps_bind; [apply keeps_get_client|]. intros c.
    destruct (_batch c) as [batch|]; [|apply keeps_ret].
    apply keeps_bind; [now apply keeps_update_client|]. intros _.
    destruct batch as [|e batch]; [apply keeps_ret|].
    apply keeps_bind; [|intros collected; apply keeps_emit].
    generalize (e :: batch) as entries. generalize (@nil json) as acc.
    generalize (∅ : gmap string Handlers) as handlers.
    intros handlers acc entries. revert handlers acc.
    induction entries as [|e' entries IH]; intros handlers acc; [apply keeps_ret|].
    cbn [endBatch_collect].
    apply keeps_bind; [apply keeps_has_prop|]. intros has_id.
    apply keeps_bind; [|intros hs; apply IH].
    destruct has_id; [|apply keeps_ret].
    apply keeps_bind; [apply keeps_get_prop|]. intros id. apply keeps_ret.
  - intros onmessage_cb. apply keeps_getSocket.
  - intros s request scb ecb. apply keeps_wsCall.
Qed.

Lemma to_int_not_nil n : Z.to_int n <> Decimal.Pos Decimal.Nil /\ Z.to_int n <> Decimal.Neg Decimal.Nil.
Proof.
  destruct n as [|p|p]; simpl; split; try discriminate;
    intros [= H]; now apply DecimalPos.Unsigned.to_uint_nonnil in H.
Qed.

Lemma Z_to_string_inj n m : Z_to_string n = Z_to_string m -> n = m.
Proof.
  unfold Z_to_string. intros H.
  apply DecimalZ.to_int_inj.
  destruct (to_int_not_nil n) as [Hn1 Hn2], (to_int_not_nil m) as [Hm1 Hm2].
  pose proof (NilZero.isi _ Hn1 Hn2) as Hn. pose proof (NilZero.isi _ Hm1 Hm2) as Hm.
  rewrite H in Hn. congruence.
Qed.

(** X24.  Requests with different numeric ids are kept under different
    keys, so the calls that one client registers never replace one
    another: after two calls through a socket with ids [n] and [m], both
    entries are in the registry. *)
Theorem distinct_ids_do_not_collide a b s s' method params method' params'
    scb ecb scb' ecb' n m w ca cb sk sk' :
  n <> m ->
  clients w !! a = Some ca ->
  clients w !! b = Some cb ->
  sockets w !! s = Some sk ->
  sockets w !! s' = Some sk' ->
  is_undefined scb = false ->
  is_undefined scb' = false ->
  to_key (VJson (JNum n)) <> to_key (VJson (JNum m))
  /\ exists w',
      (_wsCall toJSON a s (call_request_of method params n) scb ecb ;;
       _wsCall toJSON b s' (call_request_of method' params' m) scb' ecb') w = Ret tt w'
      /\ _ws_callbacks w' !! Z_to_string n = Some (mkHandlers scb ecb)
      /\ _ws_callbacks w' !! Z_to_string m = Some (mkHandlers scb' ecb').
Proof.
  intros Hne Ha Hb Hs Hs' Hu Hu'.
  assert (Hkeys : Z_to_string n <> Z_to_string m)
    by (intros H; now apply Hne, Z_to_string_inj).
  split; [exact Hkeys|].
  unfold bind, call_request_of.
  erewrite wsCall_registers; [| exact Ha | exact Hs | reflexivity | exact Hu].
  set (w1 := with_callbacks _ _).
  assert (Hb1 : clients w1 !! b = Some cb)
    by (subst w1; simpl; now rewrite clients_transmit).
  destruct (sockets_transmit s sk
              (toJSON (JObj [ ("jsonrpc", JStr "2.0"); ("method", method);
                              ("params", params); ("id", JNum n) ]))
              w s' sk' Hs Hs') as [sk'' Hs''].
  assert (Hs1 : sockets w1 !! s' = Some sk'') by (subst w1; exact Hs'').
  eexists. split.
  - erewrite wsCall_registers; [reflexivity | exact Hb1 | exact Hs1 | reflexivity | exact Hu'].
  - subst w1. cbn -[lookup insert Z_to_string]. split.
    + rewrite lookup_insert_ne by congruence. apply lookup_insert_eq.
    + apply lookup_insert_eq.
Qed.
End Further.


(** ** The further properties at concrete inputs *)

Lemma getSocket_reuses_live_socket_witness :
  _getSocket 0 7 connecting = Ret (Some 0%nat) connecting.
Proof.
  apply (proj1 (getSocket_reuses_live_socket run_getSocket 0 connecting
                  (mkClient (ws_only (VFun 60)) (Some 0%nat) 1 None)
                  "ws://backend/jsonrpc" 0
                  (mkSocket "ws://backend/jsonrpc" 0 None (Some 0%nat))
                  eq_refl eq_refl eq_refl eq_refl eq_refl ltac:(simpl; lia))).
Defined.

Lemma getSocket_opens_one_socket_witness :
  exists w',
    _getSocket 0 0 listening = Ret (Some 0%nat) w'
    /\ sockets w' = [mkSocket "ws://backend/jsonrpc" 0 None (Some 0%nat)]
    /\ _getSocket 0 5 w' = Ret (Some 0%nat) w'.
Proof.
  destruct (getSocket_opens_one_socket 0 0 listening
              (mkClient (ws_only (VFun 60)) None 1 None) "ws://backend/jsonrpc"
              eq_refl eq_refl eq_refl (or_introl eq_refl)) as [Hfirst Hagain].
  eexists. split; [exact Hfirst|]. split; [reflexivity | apply Hagain].
Defined.

Lemma first_call_opens_socket_and_waits_witness :
  exists w',
    call toJSON run_getSocket 0 (JStr "a") (JArr []) (VFun 11) (VFun 12) listening
    = Ret tt w'
    /\ trace w' = [EvNewSocket 0 "ws://backend/jsonrpc"]
    /\ _ws_callbacks w' !! "1" = Some (mkHandlers (VFun 11) (VFun 12)).
Proof.
  eexists. split.
  - apply (first_call_opens_socket_and_waits toJSON run_getSocket 0 (JStr "a") (JArr [])
             (VFun 11) (VFun 12) listening (mkClient (ws_only (VFun 60)) None 1 None)
             "ws://backend/jsonrpc"); reflexivity.
  - split; reflexivity.
Defined.

Lemma call_over_socket_bypasses_batch_witness :
  exists w',
    call toJSON run_getSocket 0 (JStr "a") (JArr []) (VFun 11) (VFun 12)
      Cases.open_in_batch = Ret tt w'
    /\ trace w' = [EvSend 0 (toJSON (request_of "a" 1))]
    /\ _batch <$> clients w' !! 0%nat = Some (Some []).
Proof.
  eexists. split.
  - apply (call_over_socket_bypasses_batch toJSON run_getSocket 0 (JStr "a") (JArr [])
             (VFun 11) (VFun 12) Cases.open_in_batch
             (mkClient (ws_only (VFun 60)) (Some 0%nat) 1 (Some []))
             "ws://backend/jsonrpc" 0
             (mkSocket "ws://backend/jsonrpc" 1 None (Some 0%nat)));
      first [reflexivity | simpl; lia].
  - split; reflexivity.
Defined.

Lemma notify_over_socket_registers_nothing_witness :
  exists w',
    notify toJSON run_getSocket 0 (JStr "n") (JArr []) pending_1 = Ret tt w'
    /\ _ws_callbacks w' = _ws_callbacks pending_1
    /\ clients w' = clients pending_1.
Proof.
  eexists.
  apply (notify_over_socket_registers_nothing toJSON run_getSocket 0 (JStr "n") (JArr [])
           pending_1 (mkClient (ws_only (VFun 60)) (Some 0%nat) 2 None)
           "ws://backend/jsonrpc" 0
           (mkSocket "ws://backend/jsonrpc" 1 None (Some 0%nat)));
    first [reflexivity | simpl; lia].
Defined.

Lemma no_socket_default w :
  no_socket (mkClient default_options None 1 None) w.
Proof. split; [reflexivity | now left]. Defined.

Lemma batch_collects_in_order_witness :
  exists w',
    run_ops toJSON run_getSocket 0 Cases.three_ops (no_endpoint (Some [])) = Ret tt w'
    /\ clients w' !! 0%nat =
       Some (mkClient default_options None 3 (Some (entries_from 1 Cases.three_ops)))
    /\ trace w' = []
    /\ _ws_callbacks w' = ∅
    /\ sockets w' = [].
Proof.
  apply (batch_collects_in_order toJSON run_getSocket 0 Cases.three_ops
           (no_endpoint (Some [])) (mkClient default_options None 1 (Some [])) []
           eq_refl (conj eq_refl (or_introl eq_refl)) eq_refl ltac:(discriminate)).
Defined.

Lemma endBatch_posts_once_witness :
  exists w',
    endBatch toJSON 0 (VFun 30) (VFun 31) Cases.collected = Ret tt w'
    /\ trace w' =
       [EvAjax (Some "/backend/jsonrpc")
          (toJSON (JArr [ request_of "a" 1;
                          notify_request (JStr "n") (JArr []);
                          request_of "b" 2 ]))
          (AjaxBatch handlers_of_two (VFun 30) (VFun 31))]
    /\ clients w' !! 0%nat = Some (mkClient http_only None 3 None)
    /\ _ws_callbacks w' = ∅.
Proof.
  apply (endBatch_posts_once toJSON 0 (VFun 30) (VFun 31) Cases.collected
           (mkClient http_only None 3 (Some (entries_from 1 Cases.three_ops)))
           (entries_from 1 Cases.three_ops) eq_refl eq_refl
           ltac:(discriminate) ltac:(repeat constructor)).
Defined.

Lemma endBatch_without_entries_witness :
  endBatch toJSON 0 (VFun 30) (VFun 31) (no_endpoint None) = Ret tt (no_endpoint None)
  /\ (startBatch 0 ;; endBatch toJSON 0 (VFun 30) (VFun 31)) (no_endpoint None)
     = Ret tt (no_endpoint None).
Proof.
  destruct (endBatch_without_entries toJSON 0 (VFun 30) (VFun 31) (no_endpoint None)
              (mkClient default_options None 1 None) eq_refl) as (Hidle & _ & Hcycle).
  split; [apply Hidle | apply Hcycle]; reflexivity.
Defined.

Lemma batch_cycle_posts_once_witness :
  (startBatch 0 ;;
   run_ops toJSON run_getSocket 0 Cases.three_ops ;;
   endBatch toJSON 0 (VFun 30) (VFun 31)) Cases.idle_http =
  Ret tt
    (mkWorld true true ∅ [mkClient http_only None 3 None] []
       [EvAjax (Some "/backend/jsonrpc")
          (toJSON (JArr [ request_of "a" 1;
                          notify_request (JStr "n") (JArr []);
                          request_of "b" 2 ]))
          (AjaxBatch handlers_of_two (VFun 30) (VFun 31))]).
Proof.
  apply (batch_cycle_posts_once toJSON run_getSocket 0 Cases.three_ops (VFun 30) (VFun 31)
           Cases.idle_http (mkClient http_only None 1 None)
           eq_refl (conj eq_refl (or_introl eq_refl)) eq_refl ltac:(discriminate)
           ltac:(discriminate)).
Defined.

Lemma endBatch_handler_map_witness :
  exists handlers,
    endBatch toJSON 0 (VFun 30) (VFun 31) Cases.collected =
    Ret tt
      (with_trace
         [EvAjax (Some "/backend/jsonrpc")
            (toJSON (JArr (map request (entries_from 1 Cases.three_ops))))
            (AjaxBatch handlers (VFun 30) (VFun 31))]
         (with_clients [mkClient http_only None 3 None] Cases.collected))
    /\ handlers !! "1" = Some (mkHandlers (VFun 11) (VFun 12))
    /\ handlers !! "3" = None.
Proof.
  destruct (endBatch_handler_map toJSON 0 (VFun 30) (VFun 31) Cases.collected
              (mkClient http_only None 3 (Some (entries_from 1 Cases.three_ops)))
              (entries_from 1 Cases.three_ops) eq_refl eq_refl
              ltac:(discriminate) ltac:(repeat constructor))
    as (handlers & Hflush & Hfound & Habsent).
  exists handlers. split; [exact Hflush|]. split.
  - apply (Hfound "1" 0%nat
             (mkBatchEntry (request_of "a" 1) (mkHandlers (VFun 11) (VFun 12)))
             eq_refl eq_refl).
    intros j e' Hlt Hj. destruct j as [|[|[|j]]]; [inversion Hlt | | | discriminate Hj];
      injection Hj as <-; discriminate.
  - apply Habsent. intros e He. apply list_elem_of_In in He.
    destruct He as [<-|[<-|[<-|[]]]]; intros H; vm_compute in H; discriminate H.
Defined.

Lemma call_success_without_error_witness :
  call_success run_cb (VFun 11) (VFun 12) (response_result (JNum 1) (JStr "A")) browser
  = Ret tt (with_trace [EvInvoke 11 [VJson (JStr "A")]] browser).
Proof.
  unfold response_result. rewrite (call_success_without_error run_cb); reflexivity.
Defined.

Lemma call_error_malformed_body_witness :
  call_error parseJSON run_cb (VFun 12) "502 Bad Gateway" browser
  = Ret tt (with_trace
              [EvInvoke 12 [VJson (JObj [("error", JStr "502 Bad Gateway")])]] browser).
Proof.
  rewrite (call_error_malformed_body parseJSON run_cb); reflexivity.
Defined.

Lemma call_error_json_body_witness :
  call_error parseJSON run_cb (VFun 12) "error-1" browser
  = Ret tt (with_trace
              [ EvLog (response_error (JNum 1) not_found);
                EvInvoke 12 [VJson not_found] ] browser).
Proof.
  rewrite (call_error_json_body parseJSON run_cb 12 "error-1"
             [("jsonrpc", JStr "2.0"); ("id", JNum 1); ("error", not_found)]
             browser eq_refl).
  reflexivity.
Defined.

Lemma wsOnMessage_not_a_response_witness :
  _wsOnMessage parseJSON run_cb 0 "not json" listening
  = Ret tt (with_trace [EvInvoke 60 [VEvent "not json"]] listening).
Proof.
  rewrite (wsOnMessage_not_a_response parseJSON run_cb 0 "not json" listening I).
  reflexivity.
Defined.

Lemma wsOnMessage_without_result_or_error_witness :
  _wsOnMessage Cases.parseJSON run_cb 1 "ack-1" pending_1
  = Ret tt (with_trace [EvInvoke 61 [VEvent "ack-1"]] pending_1).
Proof.
  rewrite (wsOnMessage_without_result_or_error Cases.parseJSON run_cb 1 "ack-1"
             [("jsonrpc", JStr "2.0"); ("id", JNum 1)] pending_1
             eq_refl eq_refl eq_refl eq_refl).
  reflexivity.
Defined.

Lemma register_then_resolve_witness :
  (_wsCall toJSON 0 0 (request_of "a" 1) (VFun 11) (VFun 12) ;;
   _wsOnMessage parseJSON run_cb 1 "result-1") connecting
  = Ret tt (with_trace [EvInvoke 11 [VJson (JStr "A")]]
              (with_sockets
                 [mkSocket "ws://backend/jsonrpc" 0
                    (Some (0%nat, toJSON (request_of "a" 1))) (Some 0%nat)]
                 connecting)).
Proof.
  unfold request_of.
  rewrite (register_then_resolve toJSON parseJSON run_cb 0 1 0
             [ ("jsonrpc", JStr "2.0"); ("method", JStr "a");
               ("params", JArr []); ("id", JNum 1) ]
             (VFun 11) (VFun 12) "result-1"
             [("jsonrpc", JStr "2.0"); ("id", JNum 1); ("result", JStr "A")]
             (JStr "A") connecting
             (mkClient (ws_only (VFun 60)) (Some 0%nat) 1 None)
             (mkClient (ws_only (VFun 61)) None 1 None)
             (mkSocket "ws://backend/jsonrpc" 0 None (Some 0%nat))
             eq_refl eq_refl eq_refl eq_refl eq_refl eq_refl eq_refl eq_refl eq_refl
             eq_refl).
  reflexivity.
Defined.

Lemma batchCb_delivers_without_console_witness :
  _batchCb_response run_cb (response_result (JNum 1) (JStr "A")) handlers_of_two
    Cases.no_console
  = Ret tt (with_trace [EvInvoke 11 [VJson (JStr "A")]] Cases.no_console).
Proof.
  unfold response_result.
  rewrite (batchCb_delivers_without_console run_cb
             [("jsonrpc", JStr "2.0"); ("id", JNum 1); ("result", JStr "A")]
             handlers_of_two (mkHandlers (VFun 11) (VFun 12)) Cases.no_console
             eq_refl eq_refl eq_refl).
  reflexivity.
Defined.

Lemma batchCb_error_never_delivered_witness :
  _batchCb_response run_cb (response_error (JNum 1) not_found) handlers_of_two browser
  = Ret tt (with_trace [EvLog (response_error (JNum 1) not_found)] browser)
  /\ _batchCb_response run_cb (response_error (JNum 7) not_found) handlers_of_two browser
     = Raise (TypeError "cannot read a property of undefined") browser.
Proof.
  unfold response_error. split.
  - rewrite (batchCb_error_never_delivered run_cb
               [("jsonrpc", JStr "2.0"); ("id", JNum 1); ("error", not_found)]
               handlers_of_two not_found browser eq_refl).
    reflexivity.
  - rewrite (batchCb_error_never_delivered run_cb
               [("jsonrpc", JStr "2.0"); ("id", JNum 7); ("error", not_found)]
               handlers_of_two not_found browser eq_refl).
    reflexivity.
Defined.

Lemma batchCb_answered_logs_and_completes_witness :
  _batchCb run_cb
    (JArr [response_result (JNum 2) (JStr "B"); response_error (JNum 1) not_found])
    handlers_of_two (VFun 30) browser
  = Ret tt
      (with_trace
         [ EvLog (response_result (JNum 2) (JStr "B"));
           EvLog (response_error (JNum 1) not_found);
           EvInvoke 30 [VJson (JArr [ response_result (JNum 2) (JStr "B");
                                      response_error (JNum 1) not_found ])] ]
         browser).
Proof.
  rewrite (batchCb_answered_logs_and_completes run_cb
             [response_result (JNum 2) (JStr "B"); response_error (JNum 1) not_found]
             handlers_of_two (VFun 30) browser eq_refl).
  - reflexivity.
  - repeat constructor; eexists; eexists; split; reflexivity.
Defined.


Lemma call_without_endpoint_consumes_id_witness :
  exists w',
    call toJSON run_getSocket 0 (JStr "a") (JArr []) (VFun 11) (VFun 12) (no_endpoint None)
    = Raise (Thrown (VJson (JStr
        "$.JsonRpcClient.call used with no websocket and no http endpoint."))) w'
    /\ counter 0 w' = Some 2%Z.
Proof.
  eexists. split.
  - apply (call_without_endpoint_consumes_id toJSON run_getSocket 0 (JStr "a") (JArr [])
             (VFun 11) (VFun 12) (no_endpoint None)
             (mkClient default_options None 1 None)
             eq_refl (no_socket_default _) eq_refl eq_refl eq_refl).
  - reflexivity.
Defined.

Lemma call_and_notify_post_once_witness :
  call toJSON run_getSocket 0 (JStr "a") (JArr []) (VFun 11) (VFun 12) Cases.idle_http
  = Ret tt (with_trace
              [EvAjax (Some "/backend/jsonrpc") (toJSON (request_of "a" 1))
                 (AjaxCall (VFun 11) (VFun 12))]
              (with_clients [mkClient http_only None 2 None] Cases.idle_http))
  /\ notify toJSON run_getSocket 0 (JStr "n") (JArr []) Cases.idle_http
     = Ret tt (with_trace
                 [EvAjax (Some "/backend/jsonrpc")
                    (toJSON (notify_request (JStr "n") (JArr []))) AjaxNotify]
                 Cases.idle_http).
Proof.
  split.
  - apply (proj1 (call_and_notify_post_once toJSON run_getSocket 0 (JStr "a") (JArr [])
                    (VFun 11) (VFun 12) Cases.idle_http (mkClient http_only None 1 None)
                    "/backend/jsonrpc"
                    eq_refl (conj eq_refl (or_introl eq_refl)) eq_refl eq_refl) eq_refl).
  - apply (proj2 (call_and_notify_post_once toJSON run_getSocket 0 (JStr "n") (JArr [])
                    (VFun 11) (VFun 12) Cases.idle_http (mkClient http_only None 1 None)
                    "/backend/jsonrpc"
                    eq_refl (conj eq_refl (or_introl eq_refl)) eq_refl eq_refl)).
Defined.

Lemma distinct_ids_do_not_collide_witness :
  to_key (VJson (JNum 2)) <> to_key (VJson (JNum 3))
  /\ exists w',
      (_wsCall toJSON 0 0 (call_request_of (JStr "a") (JArr []) 2) (VFun 11) (VFun 12) ;;
       _wsCall toJSON 1 0 (call_request_of (JStr "b") (JArr []) 3) (VFun 21) (VFun 22))
        pending_1 = Ret tt w'
      /\ _ws_callbacks w' !! Z_to_string 2 = Some (mkHandlers (VFun 11) (VFun 12))
      /\ _ws_callbacks w' !! Z_to_string 3 = Some (mkHandlers (VFun 21) (VFun 22)).
Proof.
  apply (distinct_ids_do_not_collide toJSON 0 1 0 0 (JStr "a") (JArr []) (JStr "b") (JArr [])
           (VFun 11) (VFun 12) (VFun 21) (VFun 22) 2 3 pending_1
           (mkClient (ws_only (VFun 60)) (Some 0%nat) 2 None)
           (mkClient (ws_only (VFun 61)) None 1 None)
           (mkSocket "ws://backend/jsonrpc" 1 None (Some 0%nat))
           (mkSocket "ws://backend/jsonrpc" 1 None (Some 0%nat))
           ltac:(discriminate) eq_refl eq_refl eq_refl eq_refl eq_refl eq_refl).
Defined.
